(** * Verification of the execution engine of callsbotsimp (src/exec)

    Shallow embedding of the parts of [risk_manager.py], [executor.py],
    [idempotency.py], [metrics.py] and [models.py] that decide the exit,
    stop-loss, idempotency and order-lifecycle behaviour of the executor.

    Modelling conventions:
    - Python floats are modelled as rationals [Q] (rounding is not modelled;
      the code's explicit [1e-12] boundary epsilons are kept).
    - [float(s)] on a string is a parameter [py_float : string -> option Q]
      ([None] is the [ValueError] branch); theorems hold for every such parser.
    - [time.time()] is an explicit argument [now].
    - [str.lower()] is modelled on ASCII letters. *)

From Stdlib Require Import QArith Qminmax Qround ZArith String Ascii List Bool Lia Lqa Sorting.Sorted Sorting.Permutation.
Import ListNotations.
Open Scope string_scope.

(* ------------------------------------------------------------------ *)
(** ** Python string helpers *)

Definition ascii_lower (c : ascii) : ascii :=
  let n := nat_of_ascii c in
  if (65 <=? n)%nat && (n <=? 90)%nat then ascii_of_nat (n + 32) else c.

(** [s.lower()] *)
Fixpoint str_lower (s : string) : string :=
  match s with
  | EmptyString => EmptyString
  | String c t => String (ascii_lower c) (str_lower t)
  end.

(** [needle in hay] *)
Fixpoint str_contains (needle hay : string) : bool :=
  String.prefix needle hay ||
  match hay with
  | EmptyString => false
  | String _ t => str_contains needle t
  end.

(** [s.split(c)] for a one-character separator: never empty, [""] gives [[""]]. *)
Fixpoint str_split (c : ascii) (s : string) : list string :=
  match s with
  | EmptyString => [EmptyString]
  | String x t =>
      let rest := str_split c t in
      if Ascii.eqb x c then EmptyString :: rest
      else match rest with
           | [] => [String x EmptyString]
           | h :: r => String x h :: r
           end
  end.

(* ------------------------------------------------------------------ *)
(** ** Python float helpers on [Q] *)

Definition Qltb (x y : Q) : bool := negb (Qle_bool y x).

(** [int(x)]: truncation toward zero. *)
Definition py_int (x : Q) : Z := Z.quot (Qnum x) (Zpos (Qden x)).

(** The literal [1e-12] used at the stop boundaries. *)
Definition float_eps : Q := 1 # 1000000000000.

(* ------------------------------------------------------------------ *)
(** ** models.py *)

Inductive PositionStatus := ACTIVE | STOPPED | COMPLETED.

Definition PositionStatus_eqb (a b : PositionStatus) : bool :=
  match a, b with
  | ACTIVE, ACTIVE | STOPPED, STOPPED | COMPLETED, COMPLETED => true
  | _, _ => false
  end.

(** [ExitReason]: exactly the members declared in models.py. *)
Inductive ExitReason :=
  STOP_LOSS | TIME_STOP | TRAILING_STOP | PROFIT_TAKE | MANUAL | RUG_DETECTED.

(** The [Position] dataclass, restricted to the fields the modelled
    functions read or write (logging-only fields are left out). As in
    models.py, there is no [signal_id] field. *)
Record Position := mkPosition {
  ca : string;
  entry_price : Q;
  entry_time : Q;
  size_usd : Q;
  size_tokens : Q;
  rugcheck_score : string;
  rugcheck_risks : string;
  rugcheck_lp_locked : bool;
  remaining_tokens : Q;
  status : PositionStatus;
  stop_loss_price : Q;
  is_derisked : bool;
  derisked_at_price : Q;
  derisked_amount : Q;
  runner_tokens : Q;
  runner_peak_price : Q;
  peak_price : Q;
  tiers_hit : list Z;
  last_partial_sell_time : Q
}.

(** [ExecutorSettings] fields used by the risk manager (config.py). *)
Record ExecutorSettings := mkSettings {
  stop_loss_base_pct : Q;
  daily_loss_limit_pct : Q;
  consecutive_loss_limit : Z;
  max_concurrent_positions : Z;
  disaster_stop_pct : Q;
  time_stop_minutes : Z;
  time_stop_profit_target_pct : Q;
  derisking_multiple : Q;
  derisking_sell_pct : Q;
  runner_trailing_stop_pct : Q;
  profit_tiers_csv : string;
  trailing_zones_csv : string;
  min_runner_pct : Q;
  partial_sell_cooldown_sec : Z
}.

(** Field updates used by the code. *)
Definition with_runner_peak (p : Position) (v : Q) : Position :=
  {| ca := ca p; entry_price := entry_price p; entry_time := entry_time p;
     size_usd := size_usd p; size_tokens := size_tokens p;
     rugcheck_score := rugcheck_score p; rugcheck_risks := rugcheck_risks p;
     rugcheck_lp_locked := rugcheck_lp_locked p;
     remaining_tokens := remaining_tokens p; status := status p;
     stop_loss_price := stop_loss_price p; is_derisked := is_derisked p;
     derisked_at_price := derisked_at_price p;
     derisked_amount := derisked_amount p; runner_tokens := runner_tokens p;
     runner_peak_price := v; peak_price := peak_price p;
     tiers_hit := tiers_hit p;
     last_partial_sell_time := last_partial_sell_time p |}.

Definition with_tier_hit (p : Position) (t : Z) (now : Q) : Position :=
  {| ca := ca p; entry_price := entry_price p; entry_time := entry_time p;
     size_usd := size_usd p; size_tokens := size_tokens p;
     rugcheck_score := rugcheck_score p; rugcheck_risks := rugcheck_risks p;
     rugcheck_lp_locked := rugcheck_lp_locked p;
     remaining_tokens := remaining_tokens p; status := status p;
     stop_loss_price := stop_loss_price p; is_derisked := is_derisked p;
     derisked_at_price := derisked_at_price p;
     derisked_amount := derisked_amount p; runner_tokens := runner_tokens p;
     runner_peak_price := runner_peak_price p; peak_price := peak_price p;
     tiers_hit := if existsb (Z.eqb t) (tiers_hit p) then tiers_hit p
                  else t :: tiers_hit p;
     last_partial_sell_time := now |}.

Definition with_remaining (p : Position) (r : Q) (st : PositionStatus) : Position :=
  {| ca := ca p; entry_price := entry_price p; entry_time := entry_time p;
     size_usd := size_usd p; size_tokens := size_tokens p;
     rugcheck_score := rugcheck_score p; rugcheck_risks := rugcheck_risks p;
     rugcheck_lp_locked := rugcheck_lp_locked p;
     remaining_tokens := r; status := st;
     stop_loss_price := stop_loss_price p; is_derisked := is_derisked p;
     derisked_at_price := derisked_at_price p;
     derisked_amount := derisked_amount p; runner_tokens := runner_tokens p;
     runner_peak_price := runner_peak_price p; peak_price := peak_price p;
     tiers_hit := tiers_hit p;
     last_partial_sell_time := last_partial_sell_time p |}.

(** [RiskManager.mark_position_derisked] *)
Definition mark_position_derisked (p : Position) (current_price amount_sold : Q)
  : Position :=
  {| ca := ca p; entry_price := entry_price p; entry_time := entry_time p;
     size_usd := size_usd p; size_tokens := size_tokens p;
     rugcheck_score := rugcheck_score p; rugcheck_risks := rugcheck_risks p;
     rugcheck_lp_locked := rugcheck_lp_locked p;
     remaining_tokens := remaining_tokens p; status := status p;
     stop_loss_price := entry_price p; is_derisked := true;
     derisked_at_price := current_price;
     derisked_amount := amount_sold; runner_tokens := remaining_tokens p;
     runner_peak_price := current_price; peak_price := peak_price p;
     tiers_hit := tiers_hit p;
     last_partial_sell_time := last_partial_sell_time p |}.

(* ------------------------------------------------------------------ *)
(** ** risk_manager.py *)

Section RiskManager.

(** Python's [float(s)]; [None] stands for the raised [ValueError]. *)
Variable py_float : string -> option Q.

(** The rugcheck-score part of [calculate_stop_loss_price] (lines 75-90). *)
Definition score_multiplier (rugcheck_score : string) : Q :=
  if String.eqb rugcheck_score "pending" || String.eqb rugcheck_score "n/a"
  then 7 # 10
  else
    let score := match py_float rugcheck_score with
                 | Some x => x
                 | None => 10
                 end in
    if Qle_bool score 3 then 14 # 10
    else if Qle_bool score 6 then 12 # 10
    else if Qle_bool 8 score then 8 # 10
    else 1.

(** The risk-flag override (lines 93-99). *)
Definition flag_multiplier (rugcheck_risks : string) (m : Q) : Q :=
  let risks_lower := str_lower rugcheck_risks in
  if str_contains "honeypot" risks_lower then 2
  else if str_contains "blacklist" risks_lower then 18 # 10
  else if str_contains "high_tax" risks_lower then 13 # 10
  else m.

(** The LP-lock adjustment (lines 102-103). *)
Definition lp_multiplier (lp_locked : bool) (m : Q) : Q :=
  if lp_locked then m else m * (12 # 10).

Definition risk_multiplier (p : Position) : Q :=
  lp_multiplier (rugcheck_lp_locked p)
    (flag_multiplier (rugcheck_risks p) (score_multiplier (rugcheck_score p))).

(** [RiskManager.calculate_stop_loss_price] *)
Definition calculate_stop_loss_price (s : ExecutorSettings) (p : Position) : Q :=
  let adjusted_stop_pct :=
    Qmax (1 # 10) (Qmin (9 # 10) (stop_loss_base_pct s * risk_multiplier p)) in
  entry_price p * (1 - adjusted_stop_pct).

(** [RiskManager.get_time_stop_limit] *)
Definition get_time_stop_limit (s : ExecutorSettings) (p : Position) : Q :=
  let base_time := inject_Z (time_stop_minutes s) in
  if String.eqb (rugcheck_score p) "pending" then base_time * (5 # 10)
  else if str_contains "honeypot" (str_lower (rugcheck_risks p)) then base_time * (3 # 10)
  else if negb (rugcheck_lp_locked p) then base_time * (7 # 10)
  else base_time.

(** One ["multiple:pct"] item: [item.split(':')] must have two parts and
    both must parse as floats; otherwise the enclosing [try] fails. *)
Definition parse_pair (item : string) : option (Q * Q) :=
  match str_split ":" item with
  | [a; b] =>
      match py_float a with
      | Some x => match py_float b with
                  | Some y => Some (x, y)
                  | None => None
                  end
      | None => None
      end
  | _ => None
  end.

Fixpoint parse_pairs (items : list string) : option (list (Q * Q)) :=
  match items with
  | [] => Some []
  | it :: rest =>
      match parse_pair it with
      | Some xy => match parse_pairs rest with
                   | Some l => Some (xy :: l)
                   | None => None
                   end
      | None => None
      end
  end.

(** [list.sort(key=lambda x: x[0])]: a stable sort on the first component. *)
Fixpoint insert_by_fst (x : Q * Q) (l : list (Q * Q)) : list (Q * Q) :=
  match l with
  | [] => [x]
  | y :: r => if Qle_bool (fst y) (fst x) then y :: insert_by_fst x r else x :: l
  end.

Definition sort_by_fst (l : list (Q * Q)) : list (Q * Q) :=
  fold_left (fun acc x => insert_by_fst x acc) l [].

(** The parse-then-sort block of both tier and zone configuration, with
    [None] for the [except] branch. *)
Definition parse_csv_pairs (csv : string) : option (list (Q * Q)) :=
  match parse_pairs (str_split "," csv) with
  | Some l => Some (sort_by_fst l)
  | None => None
  end.

(** The tier loop (lines 177-189): the first tier in ascending order that is
    not yet hit and is reached; returns [int(multiple)] and the capped
    fraction. A tier whose capped fraction is not positive is skipped. *)
Fixpoint tier_loop (tiers : list (Q * Q)) (hit : list Z) (current_multiple min_runner : Q)
  : option (Z * Q) :=
  match tiers with
  | [] => None
  | (multiple, sell_pct) :: rest =>
      let multiple_int := py_int multiple in
      if negb (existsb (Z.eqb multiple_int) hit) && Qle_bool multiple current_multiple then
        let projected_remaining_pct := 1 - sell_pct in
        let sell_pct' := if Qltb projected_remaining_pct min_runner
                         then Qmax 0 (1 - min_runner) else sell_pct in
        if Qltb 0 sell_pct' then Some (multiple_int, sell_pct')
        else tier_loop rest hit current_multiple min_runner
      else tier_loop rest hit current_multiple min_runner
  end.

(** Step 4 of [should_exit_position]: never-ending tiers. *)
Definition tier_step (s : ExecutorSettings) (p : Position) (current_multiple now : Q)
  : option (Q * Position) :=
  if is_derisked p && Qltb 0 (remaining_tokens p) then
    if Qle_bool (inject_Z (partial_sell_cooldown_sec s)) (now - last_partial_sell_time p) then
      let tiers := match parse_csv_pairs (profit_tiers_csv s) with
                   | Some l => l
                   | None => []
                   end in
      match tier_loop tiers (tiers_hit p) current_multiple (min_runner_pct s) with
      | Some (mi, pct) => Some (pct, with_tier_hit p mi now)
      | None => None
      end
    else None
  else None.

(** The tier list that [tier_step] scans: [PROFIT_TIERS_CSV] parsed and
    sorted, or no tier when it does not parse. *)
Definition parsed_profit_tiers (s : ExecutorSettings) : list (Q * Q) :=
  match parse_csv_pairs (profit_tiers_csv s) with
  | Some l => l
  | None => []
  end.

(** The zone loop (lines 208-210): the last zone, in sorted order, whose
    threshold is reached. *)
Fixpoint zone_loop (zones : list (Q * Q)) (current_multiple trail_pct : Q) : Q :=
  match zones with
  | [] => trail_pct
  | (threshold, pct) :: rest =>
      zone_loop rest current_multiple
        (if Qle_bool threshold current_multiple then pct else trail_pct)
  end.

Definition trail_pct_of (s : ExecutorSettings) (current_multiple : Q) : Q :=
  match parse_csv_pairs (trailing_zones_csv s) with
  | Some zones => zone_loop zones current_multiple (runner_trailing_stop_pct s)
  | None => runner_trailing_stop_pct s
  end.

(** The runner peak after the update of lines 195-198. *)
Definition updated_runner_peak (p : Position) (current_price : Q) : Q :=
  let peak0 := if Qle_bool (runner_peak_price p) 0
               then Qmax (peak_price p) (entry_price p)
               else runner_peak_price p in
  if Qltb peak0 current_price then current_price else peak0.

(** [final_stop_price] of line 215. *)
Definition runner_stop_price (s : ExecutorSettings) (p : Position) (current_price : Q) : Q :=
  let trail_pct := trail_pct_of s (current_price / entry_price p) in
  Qmax (updated_runner_peak p current_price * (1 - trail_pct)) (entry_price p).

(** Step 5: runner trailing stop (the position keeps the updated peak). *)
Definition runner_step (s : ExecutorSettings) (p : Position) (current_price : Q)
  : (bool * ExitReason * Q) * Position :=
  let p' := with_runner_peak p (updated_runner_peak p current_price) in
  if Qle_bool current_price (runner_stop_price s p current_price + float_eps)
  then ((true, TRAILING_STOP, 1), p')
  else ((false, MANUAL, 0), p').

(** [RiskManager.should_exit_position]: [None] is the [ZeroDivisionError]
    of [current_price / position.entry_price]; otherwise the returned
    triple and the position as mutated by the call. *)
Definition should_exit_position (s : ExecutorSettings) (p : Position) (current_price now : Q)
  : option ((bool * ExitReason * Q) * Position) :=
  if negb (PositionStatus_eqb (status p) ACTIVE) then Some ((false, MANUAL, 0), p)
  else if Qeq_bool (entry_price p) 0 then None
  else
    let current_multiple := current_price / entry_price p in
    let minutes_held := (now - entry_time p) / 60 in
    let disaster_stop_price := entry_price p * (1 - disaster_stop_pct s) in
    if Qle_bool current_price (disaster_stop_price + float_eps)
    then Some ((true, STOP_LOSS, 1), p)
    else if Qltb 0 (stop_loss_price p) && Qle_bool current_price (stop_loss_price p)
    then Some ((true, STOP_LOSS, 1), p)
    else
      let profit_target := 1 + time_stop_profit_target_pct s in
      if Qle_bool (get_time_stop_limit s p) minutes_held && Qltb current_multiple profit_target
      then Some ((true, TIME_STOP, 1), p)
      else if negb (is_derisked p) && Qle_bool (derisking_multiple s) current_multiple
      then Some ((true, PROFIT_TAKE, derisking_sell_pct s), p)
      else
        match tier_step s p current_multiple now with
        | Some (pct, p') => Some ((true, PROFIT_TAKE, pct), p')
        | None =>
            if is_derisked p then Some (runner_step s p current_price)
            else Some ((false, MANUAL, 0), p)
        end.

End RiskManager.

Definition ExitReason_eqb (a b : ExitReason) : bool :=
  match a, b with
  | STOP_LOSS, STOP_LOSS | TIME_STOP, TIME_STOP | TRAILING_STOP, TRAILING_STOP
  | PROFIT_TAKE, PROFIT_TAKE | MANUAL, MANUAL | RUG_DETECTED, RUG_DETECTED => true
  | _, _ => false
  end.

(* ------------------------------------------------------------------ *)
(** ** executor.py: [_execute_sell] and the [exits] table *)

(** A row of the [exits] table written by [IdempotencyStore.record_exit]. *)
Record ExitFill := mkExitFill {
  fill_signal_id : string;
  fill_mint : string;
  fill_pct : Q
}.

(** Outcomes of the remote calls made by [_execute_sell]. *)
Record SellEnv := mkSellEnv {
  sell_quote_direct : option string;
  sell_quote_fallback : option string;
  sell_swap_tx : option string;
  sell_signature : option string
}.

Section ExecuteSell.

(** Evaluation of the attribute [position.signal_id]: [None] is the
    [AttributeError] raised when the object has no such attribute. *)
Variable position_signal_id : Position -> option string.

(** [MemecoinExecutor._execute_sell]: the new position and exits table.
    Every early [return] and the outer [except] leave both unchanged.
    The upsert, [CLOSED] transition and [record_exit] calls sit in
    [try: ... except Exception: pass]; an [AttributeError] while building
    their arguments is swallowed there. P&L bookkeeping is not modelled. *)
Definition _execute_sell (p : Position) (sell_percentage : Q) (exit_reason : ExitReason)
    (current_price : Q) (env : SellEnv) (fills : list ExitFill)
  : Position * list ExitFill :=
  if Qeq_bool (entry_price p) 0 then (p, fills)
  else
    let tokens_to_sell := remaining_tokens p * sell_percentage in
    if Z.ltb (py_int tokens_to_sell) 1 && Qltb sell_percentage 1 then (p, fills)
    else
      let tokens := py_int tokens_to_sell in
      let quote := match sell_quote_direct env with
                   | Some q => Some q
                   | None => sell_quote_fallback env
                   end in
      match quote, sell_swap_tx env, sell_signature env with
      | Some _, Some _, Some _ =>
          let remaining := remaining_tokens p - inject_Z tokens in
          if Qeq_bool sell_percentage 1 then
            (with_remaining p remaining COMPLETED, fills)
          else
            let p1 := with_remaining p remaining (status p) in
            let p2 := if ExitReason_eqb exit_reason PROFIT_TAKE && negb (is_derisked p1)
                      then mark_position_derisked p1 current_price (inject_Z tokens)
                      else p1 in
            let fills' := match position_signal_id p2 with
                          | Some sid => (fills ++ [mkExitFill sid (ca p2) sell_percentage])%list
                          | None => fills
                          end in
            (p2, fills')
      | _, _, _ => (p, fills)
      end.

End ExecuteSell.

(** [models.Position] declares no [signal_id] field and nothing assigns one,
    so [position.signal_id] raises [AttributeError]. *)
Definition models_position_signal_id (_ : Position) : option string := None.

(** The sell reaches the [if sell_percentage == 1.0] branch: the entry price
    is set, the amount passes the dust check, and a quote, a swap
    transaction and a signature are all obtained. *)
Definition sell_goes_through (p : Position) (sell_percentage : Q) (env : SellEnv) : bool :=
  negb (Qeq_bool (entry_price p) 0) &&
  negb (Z.ltb (py_int (remaining_tokens p * sell_percentage)) 1 && Qltb sell_percentage 1) &&
  match (match sell_quote_direct env with Some q => Some q | None => sell_quote_fallback env end),
        sell_swap_tx env, sell_signature env with
  | Some _, Some _, Some _ => true
  | _, _, _ => false
  end.

(** Sum of [pct] over the rows of one signal:
    [SELECT COALESCE(SUM(pct),0) FROM exits WHERE signal_id=?]. *)
Definition executed_exit_pct (fills : list ExitFill) (sid : string) : Q :=
  fold_right (fun f acc => (if String.eqb (fill_signal_id f) sid then fill_pct f else 0) + acc)
    0 fills.

(* ------------------------------------------------------------------ *)
(** ** models.py [PortfolioStats] and the portfolio checks of risk_manager.py *)

Record PortfolioStats := mkStats {
  total_trades : Z;
  winning_trades : Z;
  losing_trades : Z;
  daily_realized_pnl : Q;
  consecutive_losses : Z;
  active_positions : Z;
  last_reset_time : Q;
  trading_halted_until : Q
}.

(** [RiskManager.record_trade_result] *)
Definition record_trade_result (st : PortfolioStats) (trade_result_pnl : Q) : PortfolioStats :=
  if Qltb 0 trade_result_pnl then
    mkStats (total_trades st + 1) (winning_trades st + 1) (losing_trades st)
      (daily_realized_pnl st + trade_result_pnl) 0
      (active_positions st) (last_reset_time st) (trading_halted_until st)
  else
    mkStats (total_trades st + 1) (winning_trades st) (losing_trades st + 1)
      (daily_realized_pnl st + trade_result_pnl) (consecutive_losses st + 1)
      (active_positions st) (last_reset_time st) (trading_halted_until st).

Definition should_reset_daily (st : PortfolioStats) (now : Q) : bool :=
  Qle_bool 24 ((now - last_reset_time st) / 3600).

Definition reset_daily_stats (st : PortfolioStats) (now : Q) : PortfolioStats :=
  mkStats (total_trades st) (winning_trades st) (losing_trades st) 0 0
    (active_positions st) now (trading_halted_until st).

Definition is_trading_halted (st : PortfolioStats) (now : Q) : bool :=
  Qltb now (trading_halted_until st).

(** [RiskManager._halt_trading] *)
Definition _halt_trading (st : PortfolioStats) (hours now : Q) : PortfolioStats :=
  mkStats (total_trades st) (winning_trades st) (losing_trades st)
    (daily_realized_pnl st) (consecutive_losses st) (active_positions st)
    (last_reset_time st) (now + hours * 3600).

(** The reasons returned by [can_open_position] (the message strings). *)
Inductive OpenVerdict :=
  | OpenOK | TradingHalted | DailyLossLimit | TooManyConsecutiveLosses
  | TooManyActivePositions | QualityTooLow.

(** [RiskManager.can_open_position]; [account_value] is the value returned
    by [get_estimated_account_value()]. *)
Definition can_open_position (s : ExecutorSettings) (st : PortfolioStats)
    (quality_score account_value now : Q) : (bool * OpenVerdict) * PortfolioStats :=
  let st := if should_reset_daily st now then reset_daily_stats st now else st in
  if is_trading_halted st now then ((false, TradingHalted), st)
  else
    let daily_loss_limit := account_value * daily_loss_limit_pct s in
    if Qltb (daily_realized_pnl st) (- daily_loss_limit)
    then ((false, DailyLossLimit), _halt_trading st 6 now)
    else if Z.leb (consecutive_loss_limit s) (consecutive_losses st)
    then ((false, TooManyConsecutiveLosses), _halt_trading st 2 now)
    else if Z.leb (max_concurrent_positions s) (active_positions st)
    then ((false, TooManyActivePositions), st)
    else if Qltb quality_score (6 # 10) then ((false, QualityTooLow), st)
    else ((true, OpenOK), st).

(* ------------------------------------------------------------------ *)
(** ** executor.py: signal loop and buy path *)

Module Executor.

(** Decimal rendering of an [int] inside an f-string. *)
Fixpoint N_digits (fuel : nat) (n : N) (acc : string) : string :=
  match fuel with
  | O => acc
  | S f =>
      let acc' := String (ascii_of_N (48 + N.modulo n 10)) acc in
      if N.ltb n 10 then acc' else N_digits f (N.div n 10) acc'
  end.

Definition Z_to_string (z : Z) : string :=
  let d := N_digits (S (N.size_nat (Z.abs_N z))) (Z.abs_N z) "" in
  if Z.ltb z 0 then "-" ++ d else d.

(** The fields of [SignalData] the loop reads; [signal_id] is the optional
    attribute set by [RedisSignalQueue.read_new] ([None]: not set). *)
Record SignalData := mkSignal {
  sig_ca : string;
  sig_timestamp : Q;
  sig_first_seen_ts : option Z;
  sig_signal_id : option string
}.

(** [getattr(signal, 'signal_id', None) or f"{signal.ca}:{int(signal.first_seen_ts or signal.timestamp)}"] *)
Definition loop_sig_id (sg : SignalData) : string :=
  let ts := match sig_first_seen_ts sg with
            | Some t => if Z.eqb t 0 then sig_timestamp sg else inject_Z t
            | None => sig_timestamp sg
            end in
  let fallback := sig_ca sg ++ ":" ++ Z_to_string (py_int ts) in
  match sig_signal_id sg with
  | Some sid => if String.eqb sid "" then fallback else sid
  | None => fallback
  end.

(** Observable effects of the executor. *)
Inductive Event :=
  | ProcessSignal (k : string)              (* a call of [_process_signal] *)
  | MarkProcessed (k : string)              (* [idempotency.mark_processed] *)
  | AckMsg (msg_id : string)                (* [signal_queue.ack] *)
  | OrdersStartedInc                        (* [ORDERS_STARTED.inc()] *)
  | RecordTransition (k state : string)     (* [idempotency.record_transition] *)
  | SignTx                                  (* [signer.sign_b64] *)
  | SubmitTx                                (* [wallet.send_signed_transaction] *)
  | HotPathObserved (ms : Q)                (* [tracker.mark_submitted()] *)
  | AbortedLatencyInc.                      (* [ORDERS_ABORTED_LATENCY.inc()] *)

Definition ack_if (msg_id : string) : list Event :=
  if String.eqb msg_id "" then [] else [AckMsg msg_id].

(** *** The block structure of [_signal_processor] as Python reads it *)

(** The double quote character. *)
Definition dq : string := String "034"%char EmptyString.

Fixpoint leading_spaces (s : string) : nat :=
  match s with
  | String c rest => if Ascii.eqb c " "%char then S (leading_spaces rest) else 0
  | EmptyString => 0
  end.

Fixpoint drop_spaces (s : string) : string :=
  match s with
  | String c rest => if Ascii.eqb c " "%char then drop_spaces rest else s
  | EmptyString => EmptyString
  end.

(** Lines the tokenizer skips when computing indentation: blank lines and
    lines holding only a comment. *)
Definition blank_or_comment (l : string) : bool :=
  match drop_spaces l with
  | EmptyString => true
  | String c _ => Ascii.eqb c "#"%char
  end.

Fixpoint last_nonspace (s : string) (acc : option ascii) : option ascii :=
  match s with
  | EmptyString => acc
  | String c rest => last_nonspace rest (if Ascii.eqb c " "%char then acc else Some c)
  end.

(** A compound-statement header ([def], [while], [try], [for], [if],
    [except] ...) ends in ':' and needs an indented block on the next
    logical line. (None of the lines below has a trailing comment after its
    ':', an open bracket or a string spanning several lines.) *)
Definition opens_block (l : string) : bool :=
  match last_nonspace l None with
  | Some c => Ascii.eqb c ":"%char
  | None => false
  end.

Inductive IndentError :=
  | ExpectedIndentedBlock (header_line : Z)
      (* parser: "expected an indented block after ... on line n" *)
  | UnexpectedIndent                       (* parser: "unexpected indent" *)
  | UnindentMismatch.
      (* tokenizer: "unindent does not match any outer indentation level" *)

(** Pop the indentation levels deeper than [col] (one DEDENT each). *)
Fixpoint pop_deeper (col : nat) (stack : list nat) : list nat :=
  match stack with
  | n :: rest => if Nat.ltb col n then pop_deeper col rest else stack
  | [] => []
  end.

(** CPython's indentation rules: the tokenizer keeps a stack of indentation
    columns; a deeper line pushes its column (INDENT), a shallower one pops
    to a column of the stack (DEDENTs) or fails when there is none; the
    parser requires an INDENT right after a block header and refuses one
    anywhere else. The result is the first error with its line number. *)
Fixpoint check_block_structure (stack : list nat) (header : option Z) (lineno : Z)
    (lines : list string) : option (Z * IndentError) :=
  match lines with
  | [] => None
  | l :: rest =>
      if blank_or_comment l then check_block_structure stack header (lineno + 1) rest
      else
        let col := leading_spaces l in
        let next := if opens_block l then Some lineno else None in
        if Nat.ltb (hd 0%nat stack) col then
          match header with
          | Some _ => check_block_structure (col :: stack) next (lineno + 1) rest
          | None => Some (lineno, UnexpectedIndent)
          end
        else
          let stack' := pop_deeper col stack in
          if negb (Nat.eqb (hd 0%nat stack') col) then Some (lineno, UnindentMismatch)
          else
            match header with
            | Some h => Some (lineno, ExpectedIndentedBlock h)
            | None => check_block_structure stack' next (lineno + 1) rest
            end
  end.

(** Lines 137-167 of executor.py, [MemecoinExecutor._signal_processor],
    character for character. *)
Definition signal_processor_lines : list string := [
    "    async def _signal_processor(self):";
    "        " ++ dq ++ dq ++ dq ++ "Process new signals and execute trades" ++ dq ++ dq ++ dq;
    "        ";
    "        while self.is_running:";
    "            try:";
    "                # Get new signals";
    "                # Redis queue returns list of (msg_id, SignalData)";
    "                new_signals = []";
    "                entries = await self.signal_queue.read_new()";
    "                for msg_id, signal in entries:";
    "                    new_signals.append((msg_id, signal))";
    "                ";
    "                for msg_id, signal in new_signals:";
    "            # Idempotency check";
    "            sig_id = getattr(signal, 'signal_id', None) or f" ++ dq ++ "{signal.ca}:{int(signal.first_seen_ts or signal.timestamp)}" ++ dq;
    "            # Optional Redis idempotency could be added here guarded by settings.idempotency_backend";
    "            if await self.idempotency.has_processed(sig_id):";
    "                        if msg_id:";
    "                            await self.signal_queue.ack(msg_id)";
    "                        continue";
    "                    await self._process_signal(signal)";
    "                    await self.idempotency.mark_processed(sig_id)";
    "                    if msg_id:";
    "                        await self.signal_queue.ack(msg_id)";
    "                    self.last_processed_signal_time = max(self.last_processed_signal_time, signal.timestamp)";
    "                ";
    "                await asyncio.sleep(0.1)  # 100ms loop for ultra-low latency";
    "                ";
    "            except Exception as e:";
    "                logging.error(f" ++ dq ++ "Signal processor error: {e}" ++ dq ++ ")";
    "                await asyncio.sleep(1.0)"
  ].

(** Indentation stack inside the body of [class MemecoinExecutor]. *)
Definition class_body_stack : list nat := [4%nat; 0%nat].

(** For comparison only: the same lines with 150-153 shifted right by eight
    columns, into the body of the [for] loop of line 149. *)
Definition signal_processor_lines_reindented : list string :=
  (firstn 13 signal_processor_lines
   ++ map (String.append "        ") (firstn 4 (skipn 13 signal_processor_lines))
   ++ skipn 17 signal_processor_lines)%list.

(** Outcomes of the remote calls and clock readings of [_execute_buy]. *)
Record BuyEnv := mkBuyEnv {
  env_sol_usd : option Q;
  env_quote_direct : option string;
  env_quote_fallback : option string;
  env_quote_valid : bool;
  env_swap_tx : option string;
  env_gate_ms : Q;          (* [tracker.hot_path_ms_so_far()] at line 315 *)
  env_submitted_ms : Q;     (* [tx_submitted_ts - signal_received_ts] in ms *)
  env_signature : option string
}.

Section ExecuteBuy.

(** Whether [Position(..., signal_id=sig_id, ...)] (line 351) succeeds; with
    [models.Position] it raises [TypeError], caught by the [except] of line 390. *)
Variable position_accepts_signal_id : bool.

(** [MemecoinExecutor._execute_buy] as its sequence of effects. *)
Definition _execute_buy (sig_id : string) (env : BuyEnv) : list Event :=
  match env_sol_usd env with
  | None => []
  | Some sol_usd =>
      if Qle_bool sol_usd 0 then [] else
      let quote := match env_quote_direct env with
                   | Some q => Some q
                   | None => env_quote_fallback env
                   end in
      match quote with
      | None => [OrdersStartedInc]
      | Some _ =>
          let t1 := [OrdersStartedInc; RecordTransition sig_id "QUOTED"] in
          if negb (env_quote_valid env) then t1 else
          match env_swap_tx env with
          | None => t1
          | Some _ =>
              if Qltb 100 (env_gate_ms env)
              then (t1 ++ [AbortedLatencyInc; RecordTransition sig_id "FAILED"])%list
              else
                let t2 := (t1 ++ [SignTx; RecordTransition sig_id "SIGNED"; SubmitTx;
                                  HotPathObserved (env_submitted_ms env)])%list in
                match env_signature env with
                | None => t2
                | Some _ =>
                    if position_accepts_signal_id
                    then (t2 ++ [RecordTransition sig_id "CONFIRMED"])%list
                    else t2
                end
          end
      end
  end.

(** The effects of one loop iteration for a signal not processed before
    that passes the admission checks of [_process_signal] (position not
    held, [can_open_position], lock, pre-trade gates). *)
Definition admitted_signal_trace (msg_id k buy_sig_id : string) (env : BuyEnv) : list Event :=
  (ProcessSignal k :: _execute_buy buy_sig_id env ++ MarkProcessed k :: ack_if msg_id)%list.

End ExecuteBuy.

(** The value of [position_accepts_signal_id] for models.py. *)
Definition models_position_accepts_signal_id : bool := false.

(** Every event satisfying [after] has an earlier event satisfying [before]. *)
Fixpoint preceded (before after : Event -> bool) (seen : bool) (tr : list Event) : bool :=
  match tr with
  | [] => true
  | e :: rest => (seen || negb (after e)) && preceded before after (seen || before e) rest
  end.

Definition is_transition (state : string) (e : Event) : bool :=
  match e with RecordTransition _ s => String.eqb s state | _ => false end.

Definition is_terminal_transition (e : Event) : bool :=
  is_transition "CONFIRMED" e || is_transition "FAILED" e.

Definition is_sign (e : Event) : bool := match e with SignTx => true | _ => false end.
Definition is_submit (e : Event) : bool := match e with SubmitTx => true | _ => false end.
Definition is_ack (e : Event) : bool := match e with AckMsg _ => true | _ => false end.

End Executor.

(* ------------------------------------------------------------------ *)
(** ** Further code of risk_manager.py, models.py and executor.py *)

(** [RiskManager.calculate_position_size]; [base_position_size_usd] is the
    setting of that name. *)
Definition calculate_position_size (base_position_size_usd quality_score account_balance_usd : Q)
  : Q :=
  let size_multiplier :=
    if Qle_bool (8 # 10) quality_score then 14 # 10
    else if Qle_bool (7 # 10) quality_score then 12 # 10
    else if Qle_bool (6 # 10) quality_score then 1
    else 8 # 10 in
  let calculated_size := base_position_size_usd * size_multiplier in
  let max_size_by_account := account_balance_usd * (2 # 100) in
  Qmin calculated_size max_size_by_account.

(** [PortfolioStats()]: every counter zero, [last_reset_time = time.time()]. *)
Definition new_portfolio_stats (now : Q) : PortfolioStats := mkStats 0 0 0 0 0 0 now 0.

(** [PortfolioStats.win_rate] *)
Definition win_rate (st : PortfolioStats) : Q :=
  inject_Z (winning_trades st) / inject_Z (Z.max 1 (total_trades st)).

(** [RiskManager.halt_trading] *)
Definition halt_trading (st : PortfolioStats) (duration_minutes : Z) (now : Q) : PortfolioStats :=
  _halt_trading st (inject_Z duration_minutes / 60) now.

(** [RiskManager.get_estimated_account_value]: [Some v] is a callable
    [_account_value_fetcher] that returns [v]; [None] stands for no fetcher
    and for a fetcher that raises. *)
Definition get_estimated_account_value (fetched : option Q) : Q :=
  match fetched with
  | Some v => v
  | None => 1000
  end.

(** [MemecoinExecutor._estimate_account_value], the fetcher the executor
    installs; each position comes with its [token_decimals]. *)
Definition _estimate_account_value (positions : list (Position * Z)) : Q :=
  let total_positions_value :=
    fold_left (fun acc pd =>
      let pos := fst pd in
      let current_price := if Qeq_bool (peak_price pos) 0 then entry_price pos
                           else peak_price pos in
      let remaining_ui := remaining_tokens pos / (10 ^ snd pd) in
      acc + remaining_ui * current_price) positions 0 in
  Qmax 1000 total_positions_value.

(** [RiskManager.should_exit_runner]: the decision and the position with
    its updated runner peak. *)
Definition should_exit_runner (s : ExecutorSettings) (p : Position) (current_price : Q)
  : bool * Position :=
  let p' := if Qltb (runner_peak_price p) current_price
            then with_runner_peak p current_price else p in
  let trailing_stop_price := runner_peak_price p' * (1 - runner_trailing_stop_pct s) in
  let final_stop_price := Qmax trailing_stop_price (entry_price p') in
  (Qle_bool current_price final_stop_price, p').

(* ------------------------------------------------------------------ *)
(** ** idempotency.py: the SQLite tables as lists of rows *)

Module Idempotency.

(** Table [processed_signals], rows [(signal_id, processed_at)]. *)
Definition has_processed (processed_signals : list (string * Q)) (signal_id : string) : bool :=
  existsb (fun row => String.eqb (fst row) signal_id) processed_signals.

(** [INSERT OR IGNORE]: a present key keeps its row. *)
Definition mark_processed (processed_signals : list (string * Q)) (signal_id : string) (now : Q)
  : list (string * Q) :=
  if has_processed processed_signals signal_id then processed_signals
  else (processed_signals ++ [(signal_id, now)])%list.

(** The [processed_at] column of a key. *)
Definition processed_at (processed_signals : list (string * Q)) (signal_id : string) : option Q :=
  option_map snd (find (fun row => String.eqb (fst row) signal_id) processed_signals).

(** Table [order_transitions], primary key [(signal_id, state)]. *)
Record TransitionRow := mkTransition {
  tr_signal_id : string;
  tr_mint : string;
  tr_state : string;
  tr_ts : Q
}.

Definition same_key (signal_id state : string) (row : TransitionRow) : bool :=
  String.eqb (tr_signal_id row) signal_id && String.eqb (tr_state row) state.

(** [INSERT OR REPLACE]: the row with the same primary key, if any, is
    deleted and the new row inserted. *)
Definition record_transition (rows : list TransitionRow) (signal_id mint state : string) (ts : Q)
  : list TransitionRow :=
  (filter (fun row => negb (same_key signal_id state row)) rows
     ++ [mkTransition signal_id mint state ts])%list.

(** [ORDER BY ts DESC LIMIT 1] over the rows of one signal, scanned in
    table order. SQLite leaves the order of equal [ts] unspecified; here the
    first is kept, and the theorems below do not depend on that choice. *)
Definition last_state_step (signal_id : string) (acc : option TransitionRow)
    (row : TransitionRow) : option TransitionRow :=
  if String.eqb (tr_signal_id row) signal_id then
    match acc with
    | None => Some row
    | Some best => if Qltb (tr_ts best) (tr_ts row) then Some row else acc
    end
  else acc.

Definition last_state (rows : list TransitionRow) (signal_id : string) : option string :=
  option_map tr_state (fold_left (last_state_step signal_id) rows None).

(** Table [exits], append-only: [INSERT INTO exits]. The [ts] column is
    never read and is left out. *)
Definition record_exit (exits : list ExitFill) (signal_id mint : string) (pct : Q)
  : list ExitFill :=
  (exits ++ [mkExitFill signal_id mint pct])%list.

(** [get_executed_exit_pct] is [executed_exit_pct]. *)
Definition get_executed_exit_pct (exits : list ExitFill) (signal_id : string) : Q :=
  executed_exit_pct exits signal_id.

(** Table [positions], primary key [signal_id]; [None] is SQL NULL. *)
Record PositionRow := mkPositionRow {
  pr_signal_id : string;
  pr_mint : string;
  pr_entry_signature : option string;
  pr_entry_time : option Q;
  pr_size_usd : option Q;
  pr_size_tokens : option Q;
  pr_token_decimals : option Z;
  pr_entry_price : option Q;
  pr_status : option string
}.

(** SQL [COALESCE(x, y)] *)
Definition coalesce {A : Type} (x y : option A) : option A :=
  match x with
  | Some _ => x
  | None => y
  end.

(** [ON CONFLICT(signal_id) DO UPDATE SET ...] with [excluded] the new row. *)
Definition upsert_merge (old excluded : PositionRow) : PositionRow :=
  mkPositionRow (pr_signal_id old) (pr_mint excluded)
    (coalesce (pr_entry_signature excluded) (pr_entry_signature old))
    (coalesce (pr_entry_time excluded) (pr_entry_time old))
    (coalesce (pr_size_usd excluded) (pr_size_usd old))
    (coalesce (pr_size_tokens excluded) (pr_size_tokens old))
    (coalesce (pr_token_decimals excluded) (pr_token_decimals old))
    (coalesce (pr_entry_price excluded) (pr_entry_price old))
    (coalesce (pr_status excluded) (pr_status old)).

Definition upsert_position (rows : list PositionRow) (signal_id mint : string)
    (entry_signature : option string) (entry_time size_usd size_tokens : option Q)
    (token_decimals : option Z) (entry_price : option Q) (status : option string)
  : list PositionRow :=
  let excluded := mkPositionRow signal_id mint entry_signature entry_time size_usd
                    size_tokens token_decimals entry_price status in
  if existsb (fun row => String.eqb (pr_signal_id row) signal_id) rows
  then map (fun row => if String.eqb (pr_signal_id row) signal_id
                       then upsert_merge row excluded else row) rows
  else (rows ++ [excluded])%list.

(** [SELECT * FROM positions WHERE status=?]: NULL matches no status. *)
Definition load_positions_by_status (rows : list PositionRow) (status : string)
  : list PositionRow :=
  filter (fun row => match pr_status row with
                     | Some st => String.eqb st status
                     | None => false
                     end) rows.

(** [SELECT * FROM positions WHERE signal_id=?] *)
Definition find_position (rows : list PositionRow) (signal_id : string) : option PositionRow :=
  find (fun row => String.eqb (pr_signal_id row) signal_id) rows.

End Idempotency.

(* ------------------------------------------------------------------ *)
(** ** order_manager.py: Redis locks *)

Module OrderManager.

(** The Redis keys with their expiry times in ms. *)
Definition lookup_key (redis_keys : list (string * Q)) (name : string) : option Q :=
  option_map snd (find (fun e => String.eqb (fst e) name) redis_keys).

Definition key_alive (redis_keys : list (string * Q)) (name : string) (now_ms : Q) : bool :=
  match lookup_key redis_keys name with
  | Some expiry => Qltb now_ms expiry
  | None => false
  end.

Definition delete_key (redis_keys : list (string * Q)) (name : string) : list (string * Q) :=
  filter (fun e => negb (String.eqb (fst e) name)) redis_keys.

(** [OrderManager.acquire_lock]: [SET lock:<key> 1 NX PX ttl_ms];
    [redis = false] is the configuration without a Redis URL. [None] is the
    exception the call raises: Redis answers a non-positive expire time with
    "ERR invalid expire time in 'set' command", which redis-py raises as a
    [ResponseError]. *)
Definition acquire_lock (redis : bool) (redis_keys : list (string * Q)) (key : string)
    (ttl_ms : Z) (now_ms : Q) : option (bool * list (string * Q)) :=
  if negb redis then Some (true, redis_keys)
  else if Z.leb ttl_ms 0 then None
  else
    let name := "lock:" ++ key in
    if key_alive redis_keys name now_ms then Some (false, redis_keys)
    else Some (true, (name, now_ms + inject_Z ttl_ms) :: delete_key redis_keys name).

(** [OrderManager.release_lock]: [DEL lock:<key>] inside
    [try: ... except Exception: pass]; [del_ok = false] is a DEL that
    raises, which is swallowed and leaves the keys as they were. *)
Definition release_lock (redis del_ok : bool) (redis_keys : list (string * Q)) (key : string)
  : list (string * Q) :=
  if negb redis then redis_keys
  else if del_ok then delete_key redis_keys ("lock:" ++ key)
  else redis_keys.

End OrderManager.

(* ------------------------------------------------------------------ *)
(** ** executor.py: admission of a signal *)

(** The fields of a [SignalData] read by [_process_signal]; [None] for
    [signal_id] is the absent attribute. *)
Record SignalIn := mkSignalIn {
  in_ca : string;
  in_signal_id : option string;
  in_rugcheck_risks : string;
  in_quality_score : Q
}.

(** [MemecoinExecutor._process_signal] up to the call of [_execute_buy]:
    the size [_execute_buy] is called with ([None]: not called), the
    portfolio stats and the Redis keys afterwards. [held] is
    [signal.ca in self.positions], [account_value] the value of
    [get_estimated_account_value()], [now_ms] the Redis clock. The pre-trade
    on-chain guard is skipped: [ExecutorSettings] has no
    [pretrade_onchain_guard] attribute and [getattr] defaults to [False]. The
    [total_signals_processed] counter and logging are not modelled.
    [del_ok] says whether the DEL of [release_lock] succeeds. An exception
    of [acquire_lock] is caught by the outer [except Exception]. *)
Definition _process_signal (s : ExecutorSettings) (base_position_size_usd : Q) (held : bool)
    (st : PortfolioStats) (redis del_ok : bool) (redis_keys : list (string * Q)) (sg : SignalIn)
    (account_value now now_ms : Q) : option Q * PortfolioStats * list (string * Q) :=
  if held then (None, st, redis_keys)
  else
    let '(verdict, st1) := can_open_position s st (in_quality_score sg) account_value now in
    if negb (fst verdict) then (None, st1, redis_keys)
    else
      let lock_key := in_ca sg ++ ":" ++ match in_signal_id sg with
                                         | Some x => x
                                         | None => ""
                                         end in
      match OrderManager.acquire_lock redis redis_keys lock_key 120000 now_ms with
      | None => (None, st1, redis_keys)
      | Some (false, keys1) => (None, st1, keys1)
      | Some (true, keys1) =>
        let risks_lower := str_lower (in_rugcheck_risks sg) in
        let buy :=
          if existsb (fun flag => str_contains flag risks_lower)
                     ["honeypot"; "blacklist"; "blacklisted"] then None
          else if str_contains "high_tax" risks_lower then None
          else Some base_position_size_usd in
        (buy, st1, OrderManager.release_lock redis del_ok keys1 lock_key)
      end.

(* ------------------------------------------------------------------ *)
(** ** metrics.py: [LatencyTracker] *)

Module Latency.

Record LatencyTracker := mkTracker {
  signal_received_ts : Q;
  quote_requested_ts : option Q;
  quote_received_ts : option Q;
  tx_signed_ts : option Q;
  tx_submitted_ts : option Q;
  tx_confirmed_ts : option Q
}.

(** The histogram observations made by the tracker. *)
Inductive Observation :=
  | QUOTE_MS (ms : Q) | SIGN_MS (ms : Q) | SUBMIT_MS (ms : Q)
  | HOT_PATH_MS (ms : Q) | CONFIRM_MS (ms : Q).

(** [LatencyTracker()] at clock reading [t]. *)
Definition new_tracker (t : Q) : LatencyTracker := mkTracker t None None None None None.

Definition mark_quote_requested (tr : LatencyTracker) (t : Q)
  : LatencyTracker * list Observation :=
  (mkTracker (signal_received_ts tr) (Some t) (quote_received_ts tr) (tx_signed_ts tr)
     (tx_submitted_ts tr) (tx_confirmed_ts tr), []).

Definition mark_quote_received (tr : LatencyTracker) (t : Q)
  : LatencyTracker * list Observation :=
  (mkTracker (signal_received_ts tr) (quote_requested_ts tr) (Some t) (tx_signed_ts tr)
     (tx_submitted_ts tr) (tx_confirmed_ts tr),
   match quote_requested_ts tr with
   | Some q => [QUOTE_MS ((t - q) * 1000)]
   | None => []
   end).

Definition mark_signed (tr : LatencyTracker) (t : Q) : LatencyTracker * list Observation :=
  (mkTracker (signal_received_ts tr) (quote_requested_ts tr) (quote_received_ts tr) (Some t)
     (tx_submitted_ts tr) (tx_confirmed_ts tr),
   match quote_received_ts tr with
   | Some q => [SIGN_MS ((t - q) * 1000)]
   | None => []
   end).

Definition mark_submitted (tr : LatencyTracker) (t : Q) : LatencyTracker * list Observation :=
  (mkTracker (signal_received_ts tr) (quote_requested_ts tr) (quote_received_ts tr)
     (tx_signed_ts tr) (Some t) (tx_confirmed_ts tr),
   (match tx_signed_ts tr with
    | Some q => [SUBMIT_MS ((t - q) * 1000)]
    | None => []
    end ++ [HOT_PATH_MS ((t - signal_received_ts tr) * 1000)])%list).

Definition mark_confirmed (tr : LatencyTracker) (t : Q) : LatencyTracker * list Observation :=
  (mkTracker (signal_received_ts tr) (quote_requested_ts tr) (quote_received_ts tr)
     (tx_signed_ts tr) (tx_submitted_ts tr) (Some t),
   match tx_submitted_ts tr with
   | Some q => [CONFIRM_MS ((t - q) * 1000)]
   | None => []
   end).

Definition hot_path_ms_so_far (tr : LatencyTracker) (t : Q) : Q :=
  (t - signal_received_ts tr) * 1000.

(** The tracker calls of a successful [_execute_buy], at clock readings
    t1 (quote requested), t2 (quote received), t3 (signed), t4 (submitted),
    on a tracker created at t0: the observations made. *)
Definition buy_path_observations (t0 t1 t2 t3 t4 : Q) : list Observation :=
  let '(tr1, o1) := mark_quote_requested (new_tracker t0) t1 in
  let '(tr2, o2) := mark_quote_received tr1 t2 in
  let '(tr3, o3) := mark_signed tr2 t3 in
  let '(_, o4) := mark_submitted tr3 t4 in
  (o1 ++ o2 ++ o3 ++ o4)%list.

End Latency.

(* ------------------------------------------------------------------ *)
(** ** executor.py: the SOL/USD price cache *)

Record SolCache := mkSolCache {
  _cached_sol_usd : option Q;
  _sol_price_last_fetch : Q
}.

(** The cache as set by [MemecoinExecutor.__init__]. *)
Definition init_sol_cache : SolCache := mkSolCache None 0.

(** Python truthiness of an [Optional[float]]. *)
Definition truthy (x : option Q) : bool :=
  match x with
  | Some v => negb (Qeq_bool v 0)
  | None => false
  end.

(** [MemecoinExecutor._get_sol_usd_price] at time [now]; [price] is what
    [price_monitor.get_current_price(SOL_MINT)] returns if it is called.
    Result: the value returned, the new cache, whether the price API was
    called. *)
Definition _get_sol_usd_price (c : SolCache) (now : Q) (price : option Q)
  : option Q * SolCache * bool :=
  if truthy (_cached_sol_usd c) && Qltb (now - _sol_price_last_fetch c) 10
  then (_cached_sol_usd c, c, false)
  else if truthy price then (price, mkSolCache price now, true)
  else (_cached_sol_usd c, c, true).

(** Successive calls, each at its time with the answer the price API would
    give: the values returned and whether the API was called. *)
Fixpoint run_sol_price (c : SolCache) (calls : list (Q * option Q)) : list (option Q * bool) :=
  match calls with
  | [] => []
  | (now, price) :: rest =>
      let '(v, c', called) := _get_sol_usd_price c now price in
      (v, called) :: run_sol_price c' rest
  end.

(* ------------------------------------------------------------------ *)
(** ** executor.py: resuming in-flight positions in [start()] *)

(** [Position(...)] with the dataclass defaults and [__post_init__]:
    a zero [remaining_tokens] becomes [size_tokens], a zero [peak_price]
    becomes [entry_price]. *)
Definition new_position (ca : string) (entry_price entry_time size_usd size_tokens : Q)
    (rugcheck_score rugcheck_risks : string) (rugcheck_lp_locked : bool) : Position :=
  mkPosition ca entry_price entry_time size_usd size_tokens rugcheck_score rugcheck_risks
    rugcheck_lp_locked size_tokens ACTIVE 0 false 0 0 0 0 entry_price [] 0.

(** [float(rec.get(col) or 0.0)] *)
Definition or_zero (x : option Q) : Q :=
  match x with
  | Some v => v
  | None => 0
  end.

(** The "minimal reconstruction" of a persisted row. *)
Definition resumed_position (rec : Idempotency.PositionRow) : Position :=
  new_position (Idempotency.pr_mint rec) (or_zero (Idempotency.pr_entry_price rec)) (or_zero (Idempotency.pr_entry_time rec))
    (or_zero (Idempotency.pr_size_usd rec)) (or_zero (Idempotency.pr_size_tokens rec)) "pending" "pending" false.

(** [self.positions[k] = v] on a dict kept as an association list in
    insertion order. *)
Definition dict_set {V : Type} (d : list (string * V)) (k : string) (v : V)
  : list (string * V) :=
  if existsb (fun e => String.eqb (fst e) k) d
  then map (fun e => if String.eqb (fst e) k then (k, v) else e) d
  else (d ++ [(k, v)])%list.

Definition resume_step (acc : list (string * Position) * PortfolioStats) (rec : Idempotency.PositionRow)
  : list (string * Position) * PortfolioStats :=
  let '(positions, st) := acc in
  (dict_set positions (Idempotency.pr_mint rec) (resumed_position rec),
   mkStats (total_trades st) (winning_trades st) (losing_trades st) (daily_realized_pnl st)
     (consecutive_losses st) (active_positions st + 1) (last_reset_time st)
     (trading_halted_until st)).

(** The resume block of [MemecoinExecutor.start]: the positions dict and the
    portfolio stats after it. *)
Definition resume_inflight (rows : list Idempotency.PositionRow) (positions : list (string * Position))
    (st : PortfolioStats) : list (string * Position) * PortfolioStats :=
  fold_left resume_step (Idempotency.load_positions_by_status rows "active") (positions, st).

(* ------------------------------------------------------------------ *)
(** ** A decimal [float()] for concrete runs *)

(** Agrees with Python's [float] on strings of the form [-?digits(.digits)?]. *)
Fixpoint dec_digits (s : string) (acc : Z) (den : positive) (dot any : bool) : option Q :=
  match s with
  | EmptyString => if any then Some (acc # den) else None
  | String c t =>
      if Ascii.eqb c "." then (if dot then None else dec_digits t acc den true any)
      else
        let n := nat_of_ascii c in
        if (48 <=? n)%nat && (n <=? 57)%nat
        then dec_digits t (acc * 10 + Z.of_nat (n - 48))
               (if dot then (den * 10)%positive else den) dot true
        else None
  end.

Definition dec_float (s : string) : option Q :=
  match s with
  | String "-" t => option_map Qopp (dec_digits t 0 1 false false)
  | _ => dec_digits s 0 1 false false
  end.

(* ------------------------------------------------------------------ *)
(** ** Concrete configurations used by the examples *)

(** The defaults of [load_executor_settings] (config.py), except
    daily_loss_limit_pct 0.05 and max_concurrent_positions 10 (defaults 0.04
    and 8), with the tier and zone lists shortened. *)
Definition default_settings : ExecutorSettings :=
  mkSettings (50 # 100) (5 # 100) 4 10 (80 # 100) 60 (50 # 100) 3 (33 # 100) (30 # 100)
    "5:0.10,8:0.10,13:0.10" "0:0.30,5:0.25,10:0.22,20:0.20" (7 # 100) 180.

(** A freshly opened position: 1000 tokens at price 1. *)
Definition sample_position (score risks : string) (lp_locked : bool) : Position :=
  mkPosition "mint1" 1 0 10 1000 score risks lp_locked 1000 ACTIVE 0 false 0 0 0 0 1 [] 0.

(** Buy-path environments: the quote request finds no route; and a slow
    order whose gate reading is 90 ms but whose submission lands at 150 ms. *)
Definition env_no_quote : Executor.BuyEnv :=
  Executor.mkBuyEnv (Some 150) None None true None 0 0 None.

Definition env_slow_submit : Executor.BuyEnv :=
  Executor.mkBuyEnv (Some 150) (Some "quote") None true (Some "swap-tx") 90 150 (Some "sig").

Definition env_slow_gate : Executor.BuyEnv :=
  Executor.mkBuyEnv (Some 150) (Some "quote") None true (Some "swap-tx") 130 0 (Some "sig").

(** The defaults with a single tier "5:0.95" (PROFIT_TIERS_CSV). *)
Definition single_tier_settings : ExecutorSettings :=
  mkSettings (50 # 100) (5 # 100) 4 10 (80 # 100) 60 (50 # 100) 3 (33 # 100) (30 # 100)
    "5:0.95" "0:0.30,5:0.25,10:0.22,20:0.20" (7 # 100) 180.

(** Remote calls of a sell that all succeed. *)
Definition env_sell_ok : SellEnv := mkSellEnv (Some "quote") None (Some "swap-tx") (Some "sig").

(** A position de-risked at 3x: 330 of 1000 tokens sold, stop moved to the
    entry price, runner peak 2. *)
Definition derisked_position : Position :=
  mkPosition "mint1" 1 0 10 1000 "5" "none" true 670 ACTIVE 1 true 3 330 670 2 2 [] 0.

(* ------------------------------------------------------------------ *)
(** ** Statements of the spec, written from its words *)

(** The score classes of the spec for [calculate_stop_loss_price]. *)
Inductive spec_score_multiplier (py_float : string -> option Q) : string -> Q -> Prop :=
  | ssm_pending : spec_score_multiplier py_float "pending" (7 # 10)
  | ssm_high (s : string) (x : Q) :
      s <> "pending" -> s <> "n/a" -> py_float s = Some x -> x <= 3 ->
      spec_score_multiplier py_float s (14 # 10)
  | ssm_medium (s : string) (x : Q) :
      s <> "pending" -> s <> "n/a" -> py_float s = Some x -> 4 <= x <= 6 ->
      spec_score_multiplier py_float s (12 # 10)
  | ssm_low (s : string) (x : Q) :
      s <> "pending" -> s <> "n/a" -> py_float s = Some x -> 8 <= x ->
      spec_score_multiplier py_float s (8 # 10).

(** The flag override (matched case-insensitively) and the LP factor. *)
Definition spec_multiplier (risks : string) (lp_locked : bool) (m : Q) : Q :=
  let flags := str_lower risks in
  (if str_contains "honeypot" flags then 2
   else if str_contains "blacklist" flags then 18 # 10
   else if str_contains "high_tax" flags then 13 # 10
   else m) * (if lp_locked then 1 else 12 # 10).

Definition clamp (x lo hi : Q) : Q := Qmin hi (Qmax lo x).

(** The exit rules that [should_exit_position] checks before the runner
    trailing stop (for a de-risked position): disaster stop, base stop,
    time stop and a tier sale. *)
Definition earlier_exit_fires (py_float : string -> option Q) (s : ExecutorSettings)
    (p : Position) (current_price now : Q) : bool :=
  let current_multiple := current_price / entry_price p in
  Qle_bool current_price (entry_price p * (1 - disaster_stop_pct s) + float_eps)
  || (Qltb 0 (stop_loss_price p) && Qle_bool current_price (stop_loss_price p))
  || (Qle_bool (get_time_stop_limit s p) ((now - entry_time p) / 60)
      && Qltb current_multiple (1 + time_stop_profit_target_pct s))
  || match tier_step py_float s p current_multiple now with
     | Some _ => true
     | None => false
     end.

Ltac destruct_matches :=
  repeat match goal with
         | |- context [match ?x with _ => _ end] => destruct x eqn:?
         end.

(* ------------------------------------------------------------------ *)
(** ** Lemmas *)

Lemma Qle_bool_true (x y : Q) : x <= y -> Qle_bool x y = true.
Proof. intro H. apply Qle_bool_iff. exact H. Qed.

Lemma Qle_bool_false (x y : Q) : y < x -> Qle_bool x y = false.
Proof.
  intro H. destruct (Qle_bool x y) eqn:E; [|reflexivity].
  apply Qle_bool_iff in E. exfalso. apply (Qlt_not_le _ _ H E).
Qed.

Lemma Qltb_true (x y : Q) : x < y -> Qltb x y = true.
Proof. intro H. unfold Qltb. rewrite Qle_bool_false; auto. Qed.

Lemma Qltb_false (x y : Q) : y <= x -> Qltb x y = false.
Proof. intro H. unfold Qltb. rewrite Qle_bool_true; auto. Qed.

Lemma Qltb_iff (x y : Q) : Qltb x y = true <-> x < y.
Proof.
  unfold Qltb. split.
  - intro H. apply negb_true_iff in H. apply Qnot_le_lt. intro C.
    apply Qle_bool_iff in C. congruence.
  - intro H. rewrite Qle_bool_false; auto.
Qed.

Lemma string_eqb_neq (a b : string) : a <> b -> String.eqb a b = false.
Proof. intro H. apply String.eqb_neq. exact H. Qed.

Lemma score_multiplier_spec (py_float : string -> option Q) (s : string) (m : Q) :
  spec_score_multiplier py_float s m -> score_multiplier py_float s = m.
Proof.
  intro H. unfold score_multiplier.
  inversion H as [ | s' x Hp Hn Hf Hx | s' x Hp Hn Hf Hx | s' x Hp Hn Hf Hx]; subst.
  - reflexivity.
  - rewrite (string_eqb_neq _ _ Hp), (string_eqb_neq _ _ Hn), Hf. simpl.
    rewrite Qle_bool_true; auto.
  - rewrite (string_eqb_neq _ _ Hp), (string_eqb_neq _ _ Hn), Hf. simpl.
    destruct Hx as [H4 H6].
    rewrite Qle_bool_false by (apply Qlt_le_trans with 4; [reflexivity | exact H4]).
    rewrite Qle_bool_true; auto.
  - rewrite (string_eqb_neq _ _ Hp), (string_eqb_neq _ _ Hn), Hf. simpl.
    rewrite Qle_bool_false by (apply Qlt_le_trans with 8; [reflexivity | exact Hx]).
    rewrite Qle_bool_false by (apply Qlt_le_trans with 8; [reflexivity | exact Hx]).
    rewrite Qle_bool_true; auto.
Qed.

Lemma risk_multiplier_spec (py_float : string -> option Q) (p : Position) (m : Q) :
  score_multiplier py_float (rugcheck_score p) = m ->
  risk_multiplier py_float p == spec_multiplier (rugcheck_risks p) (rugcheck_lp_locked p) m.
Proof.
  intro Hm. unfold risk_multiplier, spec_multiplier, lp_multiplier, flag_multiplier.
  rewrite Hm.
  destruct (rugcheck_lp_locked p); [ring | reflexivity].
Qed.

Lemma clamp_max_min (x : Q) : Qmax (1 # 10) (Qmin (9 # 10) x) == clamp x (1 # 10) (9 # 10).
Proof.
  unfold clamp.
  destruct (Qlt_le_dec x (1 # 10)) as [H1|H1].
  - rewrite (Q.min_r (9 # 10) x) by (apply Qle_trans with (1 # 10);
                                     [apply Qlt_le_weak; exact H1 | discriminate]).
    rewrite (Q.max_l (1 # 10) x) by (apply Qlt_le_weak; exact H1).
    rewrite Q.min_r by discriminate. reflexivity.
  - rewrite (Q.max_r (1 # 10) x) by exact H1.
    destruct (Qlt_le_dec x (9 # 10)) as [H2|H2].
    + rewrite (Q.min_r (9 # 10) x) by (apply Qlt_le_weak; exact H2).
      rewrite (Q.max_r (1 # 10) x) by exact H1. reflexivity.
    + rewrite (Q.min_l (9 # 10) x) by exact H2.
      rewrite Q.max_r by discriminate. reflexivity.
Qed.

Lemma calculate_stop_loss_price_unfold (py_float : string -> option Q)
    (s : ExecutorSettings) (p : Position) (m : Q) :
  score_multiplier py_float (rugcheck_score p) = m ->
  calculate_stop_loss_price py_float s p ==
  entry_price p * (1 - clamp (stop_loss_base_pct s *
                              spec_multiplier (rugcheck_risks p) (rugcheck_lp_locked p) m)
                             (1 # 10) (9 # 10)).
Proof.
  intro Hm. unfold calculate_stop_loss_price.
  rewrite <- clamp_max_min.
  rewrite (risk_multiplier_spec py_float p m Hm).
  reflexivity.
Qed.

(* ------------------------------------------------------------------ *)
(** ** C4: the stop-loss price *)

(** C4. For every position whose rugcheck score falls in one of the spec's
    classes ('pending' 0.7, numeric score <= 3 1.4, 4-6 1.2, >= 8 0.8),
    [calculate_stop_loss_price] is
    entry_price * (1 - clamp(base_stop_pct * m, 0.10, 0.90)) where m is the
    class multiplier, replaced by 2.0 / 1.8 / 1.3 when the risk flags
    contain 'honeypot' / 'blacklist' / 'high_tax' (in that priority, matched
    case-insensitively), and multiplied by 1.2 when LP is not locked. *)
Theorem calculate_stop_loss_price_spec (py_float : string -> option Q)
    (s : ExecutorSettings) (p : Position) (m : Q)
    (Hclass : spec_score_multiplier py_float (rugcheck_score p) m) :
  calculate_stop_loss_price py_float s p ==
  entry_price p * (1 - clamp (stop_loss_base_pct s *
                              spec_multiplier (rugcheck_risks p) (rugcheck_lp_locked p) m)
                             (1 # 10) (9 # 10)).
Proof.
  apply calculate_stop_loss_price_unfold.
  apply score_multiplier_spec. exact Hclass.
Qed.

Lemma calculate_stop_loss_price_spec_witness :
  spec_score_multiplier dec_float "2" (14 # 10) /\
  calculate_stop_loss_price dec_float default_settings (sample_position "2" "none" false) ==
  1 * (1 - clamp ((50 # 100) * spec_multiplier "none" false (14 # 10)) (1 # 10) (9 # 10)).
Proof.
  assert (H : spec_score_multiplier dec_float "2" (14 # 10))
    by (apply (ssm_high dec_float "2" 2); [discriminate | discriminate | reflexivity | discriminate]).
  split; [exact H|].
  exact (calculate_stop_loss_price_spec dec_float default_settings
           (sample_position "2" "none" false) (14 # 10) H).
Defined.

(* ------------------------------------------------------------------ *)
(** ** C5: the disaster stop *)

(** C5 (amended). For every active position with a non-zero entry price and
    every price with current_price <= entry_price * (1 - disaster_stop_pct),
    [should_exit_position] returns a full (fraction 1) exit with reason
    STOP_LOSS, the same reason as the base stop (ExitReason has no DISASTER
    member), and leaves the position unchanged. *)
Theorem should_exit_disaster_stop (py_float : string -> option Q)
    (s : ExecutorSettings) (p : Position) (current_price now : Q)
    (Hactive : status p = ACTIVE) (Hentry : ~ entry_price p == 0)
    (Hprice : current_price <= entry_price p * (1 - disaster_stop_pct s)) :
  should_exit_position py_float s p current_price now = Some ((true, STOP_LOSS, 1), p).
Proof.
  unfold should_exit_position. rewrite Hactive. simpl.
  destruct (Qeq_bool (entry_price p) 0) eqn:E.
  - apply Qeq_bool_iff in E. contradiction.
  - rewrite Qle_bool_true; [reflexivity|].
    apply Qle_trans with (entry_price p * (1 - disaster_stop_pct s)); [exact Hprice|].
    rewrite <- (Qplus_0_r (entry_price p * (1 - disaster_stop_pct s))) at 1.
    apply Qplus_le_r. discriminate.
Qed.

Lemma should_exit_disaster_stop_witness :
  status (sample_position "5" "none" true) = ACTIVE /\
  ~ entry_price (sample_position "5" "none" true) == 0 /\
  (20 # 100) <= 1 * (1 - disaster_stop_pct default_settings) /\
  should_exit_position dec_float default_settings (sample_position "5" "none" true) (20 # 100) 0
  = Some ((true, STOP_LOSS, 1), sample_position "5" "none" true).
Proof.
  split; [reflexivity|]. split; [discriminate|]. split; [vm_compute; discriminate|].
  apply should_exit_disaster_stop; [reflexivity | discriminate | vm_compute; discriminate].
Defined.

(** C5 counterexample. At entry 1 and price 0.20 (the disaster boundary with
    the default disaster_stop_pct 0.80) the exit reason is STOP_LOSS, and an
    ordinary base-stop exit (stop 0.5, price 0.4) returns the very same
    reason: no DISASTER reason exists to distinguish them. *)
Lemma should_exit_disaster_not_distinct :
  (exists p', should_exit_position dec_float default_settings
                (sample_position "5" "none" true) (20 # 100) 0
              = Some ((true, STOP_LOSS, 1), p')) /\
  (exists p', should_exit_position dec_float default_settings
                (mkPosition "mint1" 1 0 10 1000 "5" "none" true 1000 ACTIVE (1 # 2)
                   false 0 0 0 0 1 [] 0) (4 # 10) 0
              = Some ((true, STOP_LOSS, 1), p')).
Proof. split; eexists; vm_compute; reflexivity. Qed.

(* ------------------------------------------------------------------ *)
(** ** C9: 'n/a' and malformed rugcheck scores *)

(** C9 (evaluation at the failing input). 'n/a' gets the 'pending'
    multiplier 0.7 and a malformed score such as "abc" falls back to
    score 10.0 and multiplier 0.8. With base 0.50, a locked LP and no risk
    flags at entry price 1, the malformed score yields a stop price of 0.60
    (40% below entry): a tighter stop than the neutral multiplier 1.0
    (score "7": 0.50) or the high-risk multiplier 1.4 (score "0": 0.30). *)
Theorem malformed_score_tightens_stop :
  score_multiplier dec_float "n/a" = score_multiplier dec_float "pending" /\
  score_multiplier dec_float "pending" = 7 # 10 /\
  dec_float "abc" = None /\
  score_multiplier dec_float "abc" = score_multiplier dec_float "10" /\
  score_multiplier dec_float "abc" = 8 # 10 /\
  calculate_stop_loss_price dec_float default_settings (sample_position "abc" "none" true)
    == 6 # 10 /\
  calculate_stop_loss_price dec_float default_settings (sample_position "7" "none" true)
    == 5 # 10 /\
  calculate_stop_loss_price dec_float default_settings (sample_position "0" "none" true)
    == 3 # 10.
Proof. repeat split; vm_compute; reflexivity. Qed.

(* ------------------------------------------------------------------ *)
(** ** C10: break-even trades count as losses *)

Lemma record_trade_result_consecutive (st : PortfolioStats) (n : nat) :
  consecutive_losses (fold_left record_trade_result (repeat 0 n) st)
    = (consecutive_losses st + Z.of_nat n)%Z /\
  daily_realized_pnl (fold_left record_trade_result (repeat 0 n) st) == daily_realized_pnl st /\
  last_reset_time (fold_left record_trade_result (repeat 0 n) st) = last_reset_time st /\
  trading_halted_until (fold_left record_trade_result (repeat 0 n) st) = trading_halted_until st.
Proof.
  revert st. induction n as [|n IH]; intro st.
  - simpl. repeat split; try lia; reflexivity.
  - simpl. destruct (IH (record_trade_result st 0)) as [H1 [H2 [H3 H4]]].
    change (consecutive_losses (record_trade_result st 0))
      with (consecutive_losses st + 1)%Z in H1.
    change (daily_realized_pnl (record_trade_result st 0))
      with (daily_realized_pnl st + 0) in H2.
    change (last_reset_time (record_trade_result st 0)) with (last_reset_time st) in H3.
    change (trading_halted_until (record_trade_result st 0))
      with (trading_halted_until st) in H4.
    repeat split.
    + rewrite H1. lia.
    + rewrite H2. ring.
    + exact H3.
    + exact H4.
Qed.

(** C10. [record_trade_result] counts every trade with P&L <= 0, including
    break-even, as a loss (losing_trades and consecutive_losses + 1) and
    resets consecutive_losses only on strictly positive P&L; a run of
    consecutive_loss_limit break-even trades then makes [can_open_position]
    refuse with the consecutive-loss reason and halt trading for 2 hours,
    whenever the checks before it (daily reset, an active halt, the daily
    loss limit) do not decide first. *)
Theorem break_even_counts_as_loss (s : ExecutorSettings) (st : PortfolioStats)
    (pnl quality account_value now : Q) :
  (pnl <= 0 ->
     losing_trades (record_trade_result st pnl) = (losing_trades st + 1)%Z /\
     winning_trades (record_trade_result st pnl) = winning_trades st /\
     consecutive_losses (record_trade_result st pnl) = (consecutive_losses st + 1)%Z) /\
  (0 < pnl ->
     winning_trades (record_trade_result st pnl) = (winning_trades st + 1)%Z /\
     losing_trades (record_trade_result st pnl) = losing_trades st /\
     consecutive_losses (record_trade_result st pnl) = 0%Z) /\
  ((0 <= consecutive_losses st)%Z ->
   (0 <= consecutive_loss_limit s)%Z ->
   (now - last_reset_time st) / 3600 < 24 ->
   trading_halted_until st <= now ->
   - (account_value * daily_loss_limit_pct s) <= daily_realized_pnl st ->
   let st' := fold_left record_trade_result
                (repeat 0 (Z.to_nat (consecutive_loss_limit s))) st in
   fst (can_open_position s st' quality account_value now) = (false, TooManyConsecutiveLosses) /\
   trading_halted_until (snd (can_open_position s st' quality account_value now))
     = now + 2 * 3600).
Proof.
  split; [|split].
  - intro H. unfold record_trade_result. rewrite Qltb_false by exact H.
    simpl. auto.
  - intro H. unfold record_trade_result. rewrite Qltb_true by exact H.
    simpl. auto.
  - intros Hc Hl Hreset Hhalt Hdaily st'.
    destruct (record_trade_result_consecutive st (Z.to_nat (consecutive_loss_limit s)))
      as [H1 [H2 [H3 H4]]].
    fold st' in H1, H2, H3, H4.
    unfold can_open_position, should_reset_daily, is_trading_halted.
    rewrite H3, Qle_bool_false by exact Hreset.
    rewrite H4, Qltb_false by exact Hhalt.
    rewrite Qltb_false by (rewrite H2; exact Hdaily).
    replace (Z.leb (consecutive_loss_limit s) (consecutive_losses st')) with true
      by (symmetry; apply Z.leb_le; rewrite H1, Z2Nat.id by exact Hl; lia).
    split; reflexivity.
Qed.

Lemma break_even_counts_as_loss_witness :
  let st0 := mkStats 0 0 0 0 0 0 0 0 in
  fst (can_open_position default_settings
         (fold_left record_trade_result (repeat 0 4) st0) 1 1000 60)
    = (false, TooManyConsecutiveLosses).
Proof.
  intro st0.
  destruct (break_even_counts_as_loss default_settings st0 0 1 1000 60) as [_ [_ H]].
  refine (proj1 (H _ _ _ _ _)); vm_compute; first [reflexivity | discriminate].
Defined.

(* ------------------------------------------------------------------ *)
(** ** C1: idempotent signal loop *)

Import Executor.

(** C1 (code bug). The signal loop of [_signal_processor] is not valid
    Python: line 149 opens [for msg_id, signal in new_signals:] at column 16
    and the next logical line, 151 ([sig_id = ...]), sits at column 12, so
    the module raises [IndentationError: expected an indented block after
    'for' statement on line 149] at line 151. The lines before it are well
    formed, and shifting lines 150-153 into the loop body removes the error;
    as written, no loop that delivers messages, checks [has_processed] or
    calls [_process_signal] ever runs. *)
Theorem signal_loop_indentation_error :
  check_block_structure class_body_stack None 137 signal_processor_lines
    = Some (151%Z, ExpectedIndentedBlock 149) /\
  check_block_structure class_body_stack None 137 (firstn 14 signal_processor_lines) = None /\
  check_block_structure class_body_stack None 137 signal_processor_lines_reindented = None.
Proof. repeat split; vm_compute; reflexivity. Qed.

(* ------------------------------------------------------------------ *)
(** ** C2 and C3: the buy path *)

(** Signing and submission are only ever preceded by their transitions. *)
Lemma execute_buy_sign_submit_order (flag : bool) (k : string) (e : BuyEnv) :
  preceded (is_transition "QUOTED") is_sign false (_execute_buy flag k e) = true /\
  preceded (is_transition "SIGNED") is_submit false (_execute_buy flag k e) = true.
Proof.
  unfold _execute_buy. destruct_matches; split; reflexivity.
Qed.

(** C2 (evaluation at the failing input). QUOTED always precedes signing and
    SIGNED always precedes submission, but for an admitted signal whose
    quote request returns no route (direct and fallback), [_execute_buy]
    returns without recording FAILED, and the loop then marks the signal
    processed and acks it: the ack is preceded by neither CONFIRMED nor
    FAILED. This holds whether or not the [Position] constructor accepts
    [signal_id]. *)
Theorem no_quote_acked_without_failed (flag : bool) :
  (forall (k : string) (e : BuyEnv),
     preceded (is_transition "QUOTED") is_sign false (_execute_buy flag k e) = true /\
     preceded (is_transition "SIGNED") is_submit false (_execute_buy flag k e) = true) /\
  admitted_signal_trace flag "1-0" "sig-1" "sig-1" env_no_quote
    = [ProcessSignal "sig-1"; OrdersStartedInc; MarkProcessed "sig-1"; AckMsg "1-0"] /\
  preceded is_terminal_transition is_ack false
    (admitted_signal_trace flag "1-0" "sig-1" "sig-1" env_no_quote) = false.
Proof.
  split; [intros k e; apply execute_buy_sign_submit_order|].
  split; reflexivity.
Qed.

(** C3 counterexample. The gate reads 90 ms, so the order is signed and
    submitted; the submission lands at 150 ms after the signal, yet
    [orders_aborted_latency] is not incremented and the submit occurred. *)
Lemma slow_submit_not_aborted :
  let tr := _execute_buy models_position_accepts_signal_id "sig-1" env_slow_submit in
  env_submitted_ms env_slow_submit > 100 /\
  In SubmitTx tr /\ In (HotPathObserved 150) tr /\ ~ In AbortedLatencyInc tr.
Proof.
  intro tr. vm_compute in tr. subst tr.
  split; [reflexivity|]. split; [simpl; tauto|]. split; [simpl; tauto|].
  simpl. intuition discriminate.
Qed.

(** C3 (amended). Whenever the hot-path clock read at the pre-submit gate
    exceeds 100 ms, the order is neither signed nor submitted; if the gate is
    reached (positive SOL price, a quote, a valid quote, a swap transaction),
    [orders_aborted_latency] is incremented and a FAILED transition is
    recorded. The gate is read once, before signing, so an order that passes
    it may still complete submission more than 100 ms after the signal. *)
Theorem latency_gate_aborts (flag : bool) (k : string) (e : BuyEnv)
    (Hgate : 100 < env_gate_ms e) :
  ~ In SignTx (_execute_buy flag k e) /\
  ~ In SubmitTx (_execute_buy flag k e) /\
  (forall (u : Q) (tx : string),
     env_sol_usd e = Some u -> 0 < u ->
     (env_quote_direct e <> None \/ env_quote_fallback e <> None) ->
     env_quote_valid e = true -> env_swap_tx e = Some tx ->
     In AbortedLatencyInc (_execute_buy flag k e) /\
     In (RecordTransition k "FAILED") (_execute_buy flag k e)).
Proof.
  split; [|split].
  - unfold _execute_buy.
    destruct (Qltb 100 (env_gate_ms e)) eqn:G;
      [| rewrite Qltb_true in G by exact Hgate; discriminate].
    destruct_matches; simpl; intuition discriminate.
  - unfold _execute_buy.
    destruct (Qltb 100 (env_gate_ms e)) eqn:G;
      [| rewrite Qltb_true in G by exact Hgate; discriminate].
    destruct_matches; simpl; intuition discriminate.
  - intros u tx Hu Hpos Hq Hv Hs.
    unfold _execute_buy. rewrite Hu, Qle_bool_false by exact Hpos.
    destruct (env_quote_direct e) as [q|] eqn:Ed.
    + rewrite Hv, Hs, Qltb_true by exact Hgate. simpl. tauto.
    + destruct (env_quote_fallback e) as [q|] eqn:Ef.
      * rewrite Hv, Hs, Qltb_true by exact Hgate. simpl. tauto.
      * destruct Hq; contradiction.
Qed.

Lemma latency_gate_aborts_witness :
  100 < env_gate_ms env_slow_gate /\
  ~ In SubmitTx (_execute_buy models_position_accepts_signal_id "sig-1" env_slow_gate).
Proof.
  split; [reflexivity|].
  apply (latency_gate_aborts models_position_accepts_signal_id "sig-1" env_slow_gate).
  reflexivity.
Defined.

(* ------------------------------------------------------------------ *)
(** ** C6: the minimum runner floor of tier sales *)

(** On non-negative values [int()] rounds down. *)
Lemma py_int_le (x : Q) : 0 <= x -> inject_Z (py_int x) <= x.
Proof.
  intro Hx. destruct x as [n d].
  assert (Hn : (0 <= n)%Z).
  { unfold Qle in Hx. simpl in Hx. lia. }
  unfold py_int. simpl.
  rewrite Z.quot_div_nonneg by lia.
  apply (Qfloor_le (n # d)).
Qed.

Lemma tier_loop_cap (tiers : list (Q * Q)) (hit : list Z) (m min_runner f : Q) (mi : Z) :
  tier_loop tiers hit m min_runner = Some (mi, f) -> 0 < f /\ min_runner <= 1 - f.
Proof.
  induction tiers as [|[multiple pct] rest IH]; simpl; [discriminate|].
  destruct (negb (existsb (Z.eqb (py_int multiple)) hit) && Qle_bool multiple m);
    [|exact IH].
  destruct (Qltb (1 - pct) min_runner) eqn:Ecap.
  - destruct (Qltb 0 (Qmax 0 (1 - min_runner))) eqn:Epos; [|exact IH].
    intro H. injection H as _ <-.
    apply Qltb_iff in Epos. split; [exact Epos|].
    destruct (Qlt_le_dec 0 (1 - min_runner)) as [Hlt|Hle].
    + rewrite Q.max_r by (apply Qlt_le_weak; exact Hlt).
      apply Qle_lteq. right. ring.
    + rewrite Q.max_l in Epos by exact Hle. exfalso. apply (Qlt_irrefl 0). exact Epos.
  - destruct (Qltb 0 pct) eqn:Epos; [|exact IH].
    intro H. injection H as _ <-.
    split; [apply Qltb_iff; exact Epos|].
    apply Qnot_lt_le. intro C. apply Qltb_iff in C. congruence.
Qed.

Lemma tier_step_cap (py_float : string -> option Q) (s : ExecutorSettings) (p p' : Position)
    (m now f : Q) :
  tier_step py_float s p m now = Some (f, p') ->
  0 < f /\ min_runner_pct s <= 1 - f /\ remaining_tokens p' = remaining_tokens p.
Proof.
  unfold tier_step.
  destruct (is_derisked p && Qltb 0 (remaining_tokens p)); [|discriminate].
  destruct (Qle_bool _ _); [|discriminate].
  destruct (tier_loop _ _ _ _) as [[mi pct]|] eqn:E; [|discriminate].
  intro H. injection H as <- <-.
  destruct (tier_loop_cap _ _ _ _ _ _ E) as [H1 H2]. auto.
Qed.

Lemma tier_loop_choice (tiers : list (Q * Q)) (hit : list Z) (m min_runner f : Q) (mi : Z) :
  tier_loop tiers hit m min_runner = Some (mi, f) ->
  exists multiple pct, In (multiple, pct) tiers /\ multiple <= m /\
    f == (if Qltb (1 - pct) min_runner then 1 - min_runner else pct).
Proof.
  induction tiers as [|[multiple pct] rest IH]; simpl; [discriminate|].
  destruct (negb (existsb (Z.eqb (py_int multiple)) hit) && Qle_bool multiple m) eqn:Ereach;
    [|intro H; destruct (IH H) as [m' [p' [Hin Hrest]]]; exists m', p'; auto].
  apply andb_true_iff in Ereach. destruct Ereach as [_ Hle]. apply Qle_bool_iff in Hle.
  destruct (Qltb (1 - pct) min_runner) eqn:Ecap.
  - destruct (Qltb 0 (Qmax 0 (1 - min_runner))) eqn:Epos;
      [|intro H; destruct (IH H) as [m' [p' [Hin Hrest]]]; exists m', p'; auto].
    intro H. injection H as _ <-. exists multiple, pct. split; [left; reflexivity|].
    split; [exact Hle|]. rewrite Ecap.
    apply Qltb_iff in Epos.
    destruct (Qlt_le_dec 0 (1 - min_runner)) as [Hlt|Hle'].
    + apply Q.max_r. apply Qlt_le_weak. exact Hlt.
    + rewrite Q.max_l in Epos by exact Hle'. exfalso. apply (Qlt_irrefl 0). exact Epos.
  - destruct (Qltb 0 pct) eqn:Epos;
      [|intro H; destruct (IH H) as [m' [p' [Hin Hrest]]]; exists m', p'; auto].
    intro H. injection H as _ <-. exists multiple, pct.
    split; [left; reflexivity|]. split; [exact Hle|]. rewrite Ecap. reflexivity.
Qed.

Lemma tier_step_choice (py_float : string -> option Q) (s : ExecutorSettings) (p p' : Position)
    (m now f : Q) :
  tier_step py_float s p m now = Some (f, p') ->
  exists multiple pct, In (multiple, pct) (parsed_profit_tiers py_float s) /\ multiple <= m /\
    f == (if Qltb (1 - pct) (min_runner_pct s) then 1 - min_runner_pct s else pct).
Proof.
  unfold tier_step, parsed_profit_tiers.
  destruct (is_derisked p && Qltb 0 (remaining_tokens p)); [|discriminate].
  destruct (Qle_bool _ _); [|discriminate].
  destruct (tier_loop _ _ _ _) as [[mi pct]|] eqn:E; [|discriminate].
  intro H. injection H as <- _.
  exact (tier_loop_choice _ _ _ _ _ _ E).
Qed.

(** For a de-risked position every PROFIT_TAKE decision is a tier sale. *)
Lemma should_exit_profit_take_derisked (py_float : string -> option Q) (s : ExecutorSettings)
    (p p' : Position) (price now f : Q) :
  is_derisked p = true ->
  should_exit_position py_float s p price now = Some ((true, PROFIT_TAKE, f), p') ->
  tier_step py_float s p (price / entry_price p) now = Some (f, p').
Proof.
  intro Hd. unfold should_exit_position. rewrite Hd.
  destruct (negb (PositionStatus_eqb (status p) ACTIVE)); [discriminate|].
  destruct (Qeq_bool (entry_price p) 0); [discriminate|].
  destruct (Qle_bool _ _); [discriminate|].
  destruct (_ && _); [discriminate|].
  destruct (_ && _); [discriminate|].
  simpl.
  destruct (tier_step _ _ _ _ _) as [[pct p1]|]; [congruence|].
  unfold runner_step. destruct (Qle_bool _ _); discriminate.
Qed.

Lemma execute_sell_remaining (sid_of : Position -> option string) (p : Position)
    (f : Q) (reason : ExitReason) (price : Q) (env : SellEnv) (fills : list ExitFill) :
  remaining_tokens (fst (_execute_sell sid_of p f reason price env fills)) = remaining_tokens p \/
  remaining_tokens (fst (_execute_sell sid_of p f reason price env fills))
    = remaining_tokens p - inject_Z (py_int (remaining_tokens p * f)).
Proof. unfold _execute_sell. destruct_matches; simpl; auto. Qed.

(** C6 (amended). For every de-risked position, a tier sale decided by
    [should_exit_position] sells a fraction f > 0 of the tokens remaining at
    that moment: for a reached tier (multiple, pct), exactly
    1 - min_runner_pct when 1 - pct < min_runner_pct (the cap), and pct
    otherwise; so 1 - f >= min_runner_pct. Executing it with
    [_execute_sell] keeps at least min_runner_pct of the tokens held before
    the sale. Amounts sold earlier are not taken into account. *)
Theorem tier_sale_keeps_runner_of_remaining (py_float : string -> option Q)
    (s : ExecutorSettings) (p p' : Position) (price now f : Q)
    (Hd : is_derisked p = true)
    (Hexit : should_exit_position py_float s p price now = Some ((true, PROFIT_TAKE, f), p')) :
  (exists multiple pct, In (multiple, pct) (parsed_profit_tiers py_float s) /\
     multiple <= price / entry_price p /\
     f == (if Qltb (1 - pct) (min_runner_pct s) then 1 - min_runner_pct s else pct)) /\
  0 < f /\ min_runner_pct s <= 1 - f /\
  remaining_tokens p' = remaining_tokens p /\
  (forall (sid_of : Position -> option string) (env : SellEnv) (fills : list ExitFill),
     0 <= remaining_tokens p' ->
     min_runner_pct s * remaining_tokens p'
       <= remaining_tokens (fst (_execute_sell sid_of p' f PROFIT_TAKE price env fills))).
Proof.
  destruct (tier_step_cap _ _ _ _ _ _ _
              (should_exit_profit_take_derisked _ _ _ _ _ _ _ Hd Hexit))
    as [Hf [Hmin Hrem]].
  split.
  { exact (tier_step_choice _ _ _ _ _ _ _
             (should_exit_profit_take_derisked _ _ _ _ _ _ _ Hd Hexit)). }
  split; [exact Hf|]. split; [exact Hmin|]. split; [exact Hrem|].
  intros sid_of env fills Hr.
  set (r := remaining_tokens p') in *.
  assert (Hfloor : min_runner_pct s * r <= (1 - f) * r)
    by (apply Qmult_le_compat_r; assumption).
  assert (Hfr : 0 <= f * r)
    by (apply Qmult_le_0_compat; [apply Qlt_le_weak; exact Hf | exact Hr]).
  destruct (execute_sell_remaining sid_of p' f PROFIT_TAKE price env fills) as [E|E];
    fold r in E; rewrite E.
  - lra.
  - assert (Hsold : inject_Z (py_int (r * f)) <= r * f).
    { apply py_int_le. rewrite Qmult_comm. exact Hfr. }
    lra.
Qed.

Lemma tier_sale_keeps_runner_of_remaining_witness :
  let p1 := fst (_execute_sell models_position_signal_id (sample_position "5" "none" true)
                   (33 # 100) PROFIT_TAKE 3 env_sell_ok []) in
  let p2 := match should_exit_position dec_float default_settings p1 5 1000 with
            | Some (_, q) => q | None => p1 end in
  is_derisked p1 = true /\
  should_exit_position dec_float default_settings p1 5 1000
    = Some ((true, PROFIT_TAKE, 10 # 100), p2) /\
  0 < (10 # 100) /\ min_runner_pct default_settings <= 1 - (10 # 100).
Proof.
  intros p1 p2.
  assert (Hd : is_derisked p1 = true) by (vm_compute; reflexivity).
  assert (He : should_exit_position dec_float default_settings p1 5 1000
               = Some ((true, PROFIT_TAKE, 10 # 100), p2)) by (vm_compute; reflexivity).
  destruct (tier_sale_keeps_runner_of_remaining dec_float default_settings p1 p2 5 1000
              (10 # 100) Hd He) as [_ [H1 [H2 _]]].
  exact (conj Hd (conj He (conj H1 H2))).
Defined.

(** C6 counterexample. With PROFIT_TIERS_CSV "5:0.95" and the default
    min_runner_pct 0.07: de-risking sells 330 of 1000 tokens at 3x; at 5x the
    tier is capped to 0.93 of the 670 remaining tokens, and the sale leaves
    47 tokens, 4.7% of the original position, below the 7% floor (the spec's
    rule would sell only the 600 tokens above 70). *)
Lemma tier_sale_breaks_original_floor :
  let p0 := sample_position "5" "none" true in
  let p1 := fst (_execute_sell models_position_signal_id p0 (33 # 100) PROFIT_TAKE 3
                   env_sell_ok []) in
  should_exit_position dec_float single_tier_settings p0 3 0
    = Some ((true, PROFIT_TAKE, 33 # 100), p0) /\
  exists p2,
    should_exit_position dec_float single_tier_settings p1 5 1000
      = Some ((true, PROFIT_TAKE, 93 # 100), p2) /\
    remaining_tokens (fst (_execute_sell models_position_signal_id p2 (93 # 100) PROFIT_TAKE 5
                             env_sell_ok [])) == 47 /\
    47 < min_runner_pct single_tier_settings * size_tokens p0.
Proof.
  intros p0 p1. split; [vm_compute; reflexivity|].
  eexists. split; [vm_compute; reflexivity|].
  split; vm_compute; reflexivity.
Qed.

(* ------------------------------------------------------------------ *)
(** ** C8: exit fills recorded by [_execute_sell] *)

(** C8 (code bug). [_execute_sell] reads [position.signal_id] to record an
    exit fill, but [models.Position] declares no such field (the buy path
    passes [Position(..., signal_id=...)] and the exit path reads it, so the
    field is intended). (1) As written the attribute access raises inside
    [try: ... except Exception: pass], so no call ever records a fill.
    (2) With the intended field carrying [sid], a sell that does not go
    through changes nothing, a full exit (sell_percentage = 1.0) records no
    row, and every other sell that goes through records exactly one row
    (sid, mint, sell_percentage), a fraction of the tokens remaining at that
    time. (3) Hence a position de-risked at 3x (0.33), sold at a capped 5x
    tier (0.93) and closed by a full trailing-stop exit ends COMPLETED with
    recorded fractions summing to 0 as written and to 1.26 with the field;
    the spec requires exactly 1 at completion and at most 1 always. *)
Theorem execute_sell_exit_fills :
  (forall (p : Position) (f : Q) (reason : ExitReason) (price : Q) (env : SellEnv)
          (fills : list ExitFill),
     snd (_execute_sell models_position_signal_id p f reason price env fills) = fills) /\
  (forall (sid : string) (p : Position) (f : Q) (reason : ExitReason) (price : Q)
          (env : SellEnv) (fills : list ExitFill),
     let r := _execute_sell (fun _ => Some sid) p f reason price env fills in
     (sell_goes_through p f env = false -> r = (p, fills)) /\
     (Qeq_bool f 1 = true -> snd r = fills) /\
     (sell_goes_through p f env = true -> Qeq_bool f 1 = false ->
        snd r = (fills ++ [mkExitFill sid (ca p) f])%list)) /\
  (let run := fun (sid_of : Position -> option string) =>
     let p0 := sample_position "5" "none" true in
     let (p1, fl1) := _execute_sell sid_of p0 (33 # 100) PROFIT_TAKE 3 env_sell_ok [] in
     match should_exit_position dec_float single_tier_settings p1 5 1000 with
     | Some ((_, _, f), p2) =>
         let (p3, fl3) := _execute_sell sid_of p2 f PROFIT_TAKE 5 env_sell_ok fl1 in
         _execute_sell sid_of p3 1 TRAILING_STOP 2 env_sell_ok fl3
     | None => (p1, fl1)
     end in
   status (fst (run models_position_signal_id)) = COMPLETED /\
   executed_exit_pct (snd (run models_position_signal_id)) "sig-1" == 0 /\
   status (fst (run (fun _ => Some "sig-1"))) = COMPLETED /\
   executed_exit_pct (snd (run (fun _ => Some "sig-1"))) "sig-1" == 126 # 100).
Proof.
  split; [|split].
  - intros p f reason price env fills.
    unfold _execute_sell, models_position_signal_id. destruct_matches; reflexivity.
  - intros sid p f reason price env fills r. subst r.
    unfold _execute_sell, sell_goes_through.
    destruct_matches; simpl; repeat split; intros; first [reflexivity | discriminate].
  - vm_compute. repeat split; reflexivity.
Qed.

(* ------------------------------------------------------------------ *)
(** ** C7: the runner trailing stop *)

Definition fst_le (a b : Q * Q) : Prop := fst a <= fst b.

Lemma insert_by_fst_In (x y : Q * Q) (l : list (Q * Q)) :
  In y (insert_by_fst x l) <-> y = x \/ In y l.
Proof.
  induction l as [|z r IH]; simpl; [intuition congruence|].
  destruct (Qle_bool (fst z) (fst x)); simpl; rewrite ?IH; intuition congruence.
Qed.

Lemma insert_by_fst_sorted (x : Q * Q) (l : list (Q * Q)) :
  StronglySorted fst_le l -> StronglySorted fst_le (insert_by_fst x l).
Proof.
  induction l as [|z r IH]; simpl; intro H.
  - repeat constructor.
  - inversion H as [|? ? Hr Hall]; subst.
    destruct (Qle_bool (fst z) (fst x)) eqn:E.
    + constructor; [apply IH; exact Hr|].
      apply Forall_forall. intros y Hy. apply insert_by_fst_In in Hy as [->|Hy].
      * apply Qle_bool_iff. exact E.
      * rewrite Forall_forall in Hall. apply Hall. exact Hy.
    + assert (Hxz : fst_le x z).
      { unfold fst_le. apply Qlt_le_weak. apply Qnot_le_lt. intro C.
        apply Qle_bool_iff in C. congruence. }
      constructor; [exact H|].
      constructor; [exact Hxz|].
      rewrite Forall_forall in Hall |- *. intros y Hy.
      unfold fst_le in *. apply Qle_trans with (fst z); [exact Hxz | apply Hall; exact Hy].
Qed.

Lemma sort_by_fst_fold (l acc : list (Q * Q)) :
  StronglySorted fst_le acc ->
  StronglySorted fst_le (fold_left (fun acc x => insert_by_fst x acc) l acc) /\
  (forall y, In y (fold_left (fun acc x => insert_by_fst x acc) l acc) <-> In y l \/ In y acc).
Proof.
  revert acc. induction l as [|x r IH]; intros acc H; simpl.
  - split; [exact H | tauto].
  - destruct (IH (insert_by_fst x acc) (insert_by_fst_sorted x acc H)) as [Hs Hin].
    split; [exact Hs|]. intro y. rewrite Hin, insert_by_fst_In. intuition congruence.
Qed.

Lemma sort_by_fst_spec (l : list (Q * Q)) :
  StronglySorted fst_le (sort_by_fst l) /\ (forall y, In y (sort_by_fst l) <-> In y l).
Proof.
  destruct (sort_by_fst_fold l [] (SSorted_nil _)) as [Hs Hin].
  split; [exact Hs|]. intro y. unfold sort_by_fst. rewrite Hin. simpl. tauto.
Qed.

(** On a list sorted by threshold, the zone loop returns the pct of a zone
    with the highest threshold reached, or the fallback when none is. *)
Lemma zone_loop_spec (zones : list (Q * Q)) (m d : Q) :
  StronglySorted fst_le zones ->
  (zone_loop zones m d = d /\ forall z, In z zones -> ~ fst z <= m) \/
  (exists z, In z zones /\ fst z <= m /\ zone_loop zones m d = snd z /\
             forall z', In z' zones -> fst z' <= m -> fst z' <= fst z).
Proof.
  revert d. induction zones as [|[t pct] rest IH]; intros d H; simpl.
  - left. split; [reflexivity | tauto].
  - inversion H as [|? ? Hr Hall]; subst. rewrite Forall_forall in Hall.
    destruct (IH (if Qle_bool t m then pct else d) Hr) as [[E Hnone]|[z [Hz [Hzm [E Hmax]]]]];
      rewrite E.
    + destruct (Qle_bool t m) eqn:Et.
      * right. exists (t, pct). apply Qle_bool_iff in Et.
        split; [left; reflexivity|]. split; [exact Et|]. split; [reflexivity|].
        intros z' [<-|Hz'] Hz'm; [apply Qle_refl|].
        exfalso. exact (Hnone z' Hz' Hz'm).
      * left. split; [reflexivity|].
        intros z [<-|Hz]; [|apply Hnone; exact Hz].
        simpl. intro C. apply Qle_bool_iff in C. congruence.
    + right. exists z. split; [right; exact Hz|]. split; [exact Hzm|].
      split; [reflexivity|].
      intros z' [<-|Hz'] Hz'm; [apply (Hall z Hz) | apply Hmax; assumption].
Qed.

Lemma trail_pct_of_spec (py_float : string -> option Q) (s : ExecutorSettings) (m : Q) :
  (parse_pairs py_float (str_split "," (trailing_zones_csv s)) = None ->
   trail_pct_of py_float s m = runner_trailing_stop_pct s) /\
  (forall raw, parse_pairs py_float (str_split "," (trailing_zones_csv s)) = Some raw ->
   (trail_pct_of py_float s m = runner_trailing_stop_pct s /\
    forall z, In z raw -> ~ fst z <= m) \/
   (exists z, In z raw /\ fst z <= m /\ trail_pct_of py_float s m = snd z /\
              forall z', In z' raw -> fst z' <= m -> fst z' <= fst z)).
Proof.
  unfold trail_pct_of, parse_csv_pairs.
  split; [intro E; rewrite E; reflexivity|].
  intros raw E. rewrite E.
  destruct (sort_by_fst_spec raw) as [Hs Hin].
  destruct (zone_loop_spec (sort_by_fst raw) m (runner_trailing_stop_pct s) Hs)
    as [[E1 Hn]|[z [Hz [Hzm [E1 Hmax]]]]].
  - left. split; [exact E1|]. intros z Hz. apply Hn. apply Hin. exact Hz.
  - right. exists z. split; [apply Hin; exact Hz|]. split; [exact Hzm|].
    split; [exact E1|]. intros z' Hz'. apply Hmax. apply Hin. exact Hz'.
Qed.

Lemma runner_stop_price_ge_entry (py_float : string -> option Q) (s : ExecutorSettings)
    (p : Position) (price : Q) :
  entry_price p <= runner_stop_price py_float s p price.
Proof. unfold runner_stop_price. apply Q.le_max_r. Qed.

(** C7 (amended). For an active de-risked position with a non-zero entry
    price on which no earlier rule fires (disaster stop, the base stop at
    stop_loss_price, the time stop, a profit tier), [should_exit_position]
    returns the runner decision: a full TRAILING_STOP exit exactly when
    current_price <= stop + 1e-12, and no exit otherwise, where stop is
    max(peak * (1 - trail_pct), entry_price) with peak the updated runner
    peak, so the stop is never below the entry price; trail_pct is the pct of
    a zone with the highest threshold <= the current multiple, or
    runner_trailing_stop_pct when no zone is reached or the zones do not
    parse. *)
Theorem runner_trailing_stop_spec (py_float : string -> option Q) (s : ExecutorSettings)
    (p : Position) (price now : Q)
    (Hactive : status p = ACTIVE) (Hd : is_derisked p = true)
    (Hentry : Qeq_bool (entry_price p) 0 = false)
    (Hearlier : earlier_exit_fires py_float s p price now = false) :
  should_exit_position py_float s p price now =
    Some ((if Qle_bool price (runner_stop_price py_float s p price + float_eps)
           then (true, TRAILING_STOP, 1) else (false, MANUAL, 0)),
          with_runner_peak p (updated_runner_peak p price)) /\
  runner_stop_price py_float s p price
    = Qmax (updated_runner_peak p price * (1 - trail_pct_of py_float s (price / entry_price p)))
           (entry_price p) /\
  entry_price p <= runner_stop_price py_float s p price /\
  (parse_pairs py_float (str_split "," (trailing_zones_csv s)) = None ->
   trail_pct_of py_float s (price / entry_price p) = runner_trailing_stop_pct s) /\
  (forall raw, parse_pairs py_float (str_split "," (trailing_zones_csv s)) = Some raw ->
   (trail_pct_of py_float s (price / entry_price p) = runner_trailing_stop_pct s /\
    forall z, In z raw -> ~ fst z <= price / entry_price p) \/
   (exists z, In z raw /\ fst z <= price / entry_price p /\
              trail_pct_of py_float s (price / entry_price p) = snd z /\
              forall z', In z' raw -> fst z' <= price / entry_price p -> fst z' <= fst z)).
Proof.
  split; [|split; [reflexivity|split; [apply runner_stop_price_ge_entry|
                                      apply trail_pct_of_spec]]].
  unfold earlier_exit_fires in Hearlier.
  apply orb_false_elim in Hearlier as [Hearlier Htier].
  apply orb_false_elim in Hearlier as [Hearlier Htime].
  apply orb_false_elim in Hearlier as [Hdis Hstop].
  unfold should_exit_position. rewrite Hactive, Hentry, Hd. simpl.
  rewrite Hdis, Hstop, Htime. simpl.
  destruct (tier_step py_float s p (price / entry_price p) now); [discriminate|].
  unfold runner_step. destruct (Qle_bool price (runner_stop_price py_float s p price + float_eps)); reflexivity.
Qed.

Lemma runner_trailing_stop_spec_witness :
  status derisked_position = ACTIVE /\ is_derisked derisked_position = true /\
  Qeq_bool (entry_price derisked_position) 0 = false /\
  earlier_exit_fires dec_float default_settings derisked_position (6 # 5) 0 = false /\
  entry_price derisked_position <= runner_stop_price dec_float default_settings derisked_position (6 # 5).
Proof.
  assert (H1 : status derisked_position = ACTIVE) by reflexivity.
  assert (H2 : is_derisked derisked_position = true) by reflexivity.
  assert (H3 : Qeq_bool (entry_price derisked_position) 0 = false) by (vm_compute; reflexivity).
  assert (H4 : earlier_exit_fires dec_float default_settings derisked_position (6 # 5) 0 = false)
    by (vm_compute; reflexivity).
  destruct (runner_trailing_stop_spec dec_float default_settings derisked_position (6 # 5) 0
              H1 H2 H3 H4) as [_ [_ [H5 _]]].
  exact (conj H1 (conj H2 (conj H3 (conj H4 H5)))).
Defined.

(** C7 counterexample. A position de-risked at 3x has its base stop moved
    to the entry price 1, and its runner peak is 2. At price 1 the runner
    stop is max(2 * 0.70, 1) = 1.4 >= 1, yet the exit reason is STOP_LOSS:
    the base stop is checked first, so TRAILING_STOP does not fire for every
    price <= the trailing stop. *)
Lemma trailing_stop_preempted_by_base_stop :
  runner_stop_price dec_float default_settings derisked_position 1 == 7 # 5 /\
  Qle_bool 1 (runner_stop_price dec_float default_settings derisked_position 1 + float_eps) = true /\
  should_exit_position dec_float default_settings derisked_position 1 0
    = Some ((true, STOP_LOSS, 1), derisked_position).
Proof. vm_compute. repeat split; reflexivity. Qed.

(* ------------------------------------------------------------------ *)
(** * Further properties of the code *)

Lemma Qle_bool_false_lt (x y : Q) : Qle_bool x y = false -> y < x.
Proof.
  intro H. apply Qnot_le_lt. intro C. apply Qle_bool_iff in C. congruence.
Qed.

Lemma Qltb_false_le (x y : Q) : Qltb x y = false -> y <= x.
Proof.
  unfold Qltb. intro H. apply negb_false_iff in H. apply Qle_bool_iff. exact H.
Qed.

(** Turns the boolean comparisons of the context into propositions. *)
Ltac qbool_props :=
  repeat match goal with
         | H : Qle_bool _ _ = true |- _ => apply Qle_bool_iff in H
         | H : Qle_bool _ _ = false |- _ => apply Qle_bool_false_lt in H
         | H : Qltb _ _ = true |- _ => apply Qltb_iff in H
         | H : Qltb _ _ = false |- _ => apply Qltb_false_le in H
         end.

(** ** Position sizing *)

(** The size never exceeds 2% of the account balance. With a
    non-negative base size it also never exceeds 1.4 times the base size,
    and a better quality score never gives a smaller size. *)
Theorem calculate_position_size_bounds (base q q' balance : Q) :
  calculate_position_size base q balance <= balance * (2 # 100) /\
  (0 <= base -> calculate_position_size base q balance <= base * (14 # 10)) /\
  (0 <= base -> q <= q' ->
   calculate_position_size base q balance <= calculate_position_size base q' balance).
Proof.
  unfold calculate_position_size.
  split; [apply Q.le_min_r|]. split.
  - intro Hbase. eapply Qle_trans; [apply Q.le_min_l|].
    destruct (Qle_bool (8 # 10) q); [apply Qle_refl|].
    destruct (Qle_bool (7 # 10) q); [lra|].
    destruct (Qle_bool (6 # 10) q); lra.
  - intros Hbase Hq.
    destruct (Qle_bool (8 # 10) q) eqn:E1; destruct (Qle_bool (7 # 10) q) eqn:E2;
    destruct (Qle_bool (6 # 10) q) eqn:E3; destruct (Qle_bool (8 # 10) q') eqn:F1;
    destruct (Qle_bool (7 # 10) q') eqn:F2; destruct (Qle_bool (6 # 10) q') eqn:F3;
    qbool_props; first [exfalso; lra | apply Q.min_le_compat_r; lra].
Qed.

Lemma calculate_position_size_bounds_witness :
  calculate_position_size 10 (65 # 100) 1000 <= calculate_position_size 10 (9 # 10) 1000 /\
  calculate_position_size 10 (9 # 10) 1000 <= 10 * (14 # 10).
Proof.
  destruct (calculate_position_size_bounds 10 (65 # 100) (9 # 10) 1000) as [_ [_ H]].
  destruct (calculate_position_size_bounds 10 (9 # 10) (9 # 10) 1000) as [_ [H' _]].
  split; [apply H; vm_compute; discriminate | apply H'; vm_compute; discriminate].
Defined.

(** ** Trade statistics *)

Definition stats_ok (st : PortfolioStats) : Prop :=
  (0 <= winning_trades st)%Z /\ (0 <= losing_trades st)%Z /\
  (winning_trades st + losing_trades st = total_trades st)%Z /\
  (0 <= consecutive_losses st <= losing_trades st)%Z.

Lemma record_trade_result_ok (st : PortfolioStats) (pnl : Q) :
  stats_ok st -> stats_ok (record_trade_result st pnl).
Proof.
  unfold stats_ok, record_trade_result. destruct (Qltb 0 pnl); simpl; lia.
Qed.

Lemma win_rate_bounds (st : PortfolioStats) :
  stats_ok st -> 0 <= win_rate st <= 1.
Proof.
  unfold stats_ok, win_rate. intros [Hw [Hl [Ht _]]].
  assert (Hpos : 0 < inject_Z (Z.max 1 (total_trades st))).
  { change 0 with (inject_Z 0). rewrite <- Zlt_Qlt. lia. }
  split.
  - apply Qle_shift_div_l; [exact Hpos|].
    rewrite Qmult_0_l. change 0 with (inject_Z 0). rewrite <- Zle_Qle. exact Hw.
  - apply Qle_shift_div_r; [exact Hpos|].
    rewrite Qmult_1_l. rewrite <- Zle_Qle. lia.
Qed.

(** Starting from [PortfolioStats()], any sequence of recorded trade results
    keeps winning + losing = total and consecutive_losses <= losing, and the
    win rate stays within [0, 1]. *)
Theorem trade_stats_invariant (now : Q) (pnls : list Q) :
  let st := fold_left record_trade_result pnls (new_portfolio_stats now) in
  (winning_trades st + losing_trades st = total_trades st)%Z /\
  (0 <= consecutive_losses st <= losing_trades st)%Z /\
  0 <= win_rate st <= 1.
Proof.
  intro st.
  assert (H : stats_ok st).
  { subst st.
    assert (Hgen : forall s0, stats_ok s0 ->
                     stats_ok (fold_left record_trade_result pnls s0)).
    { induction pnls as [|x r IH]; intros s0 Hs; simpl; [exact Hs|].
      apply IH. apply record_trade_result_ok. exact Hs. }
    apply Hgen. unfold stats_ok. simpl. lia. }
  split; [apply H|]. split; [apply H|]. apply win_rate_bounds. exact H.
Qed.

(** ** Admission checks of the risk manager *)

Lemma reset_keeps_halt (st : PortfolioStats) (now : Q) :
  trading_halted_until (reset_daily_stats st now) = trading_halted_until st.
Proof. reflexivity. Qed.

Lemma can_open_position_halted (s : ExecutorSettings) (st : PortfolioStats) (q a t : Q) :
  is_trading_halted st t = true ->
  fst (can_open_position s st q a t) = (false, TradingHalted).
Proof.
  intro H. unfold can_open_position.
  destruct (should_reset_daily st t).
  - replace (is_trading_halted (reset_daily_stats st t) t) with true by (symmetry; exact H).
    reflexivity.
  - rewrite H. reflexivity.
Qed.

(** A rejection for the daily loss limit halts trading for 6 hours, and one
    for the loss streak for 2 hours: every later call of
    [can_open_position] before the end of that window (with any signal and
    account value) is rejected with "Trading halted", even after a daily
    reset. *)
Theorem rejection_halts_trading (s : ExecutorSettings) (st : PortfolioStats)
    (q a now t q' a' : Q) :
  (fst (can_open_position s st q a now) = (false, DailyLossLimit) ->
   t < now + 6 * 3600 ->
   fst (can_open_position s (snd (can_open_position s st q a now)) q' a' t)
     = (false, TradingHalted)) /\
  (fst (can_open_position s st q a now) = (false, TooManyConsecutiveLosses) ->
   t < now + 2 * 3600 ->
   fst (can_open_position s (snd (can_open_position s st q a now)) q' a' t)
     = (false, TradingHalted)).
Proof.
  unfold can_open_position at 1 3 4 6.
  set (st0 := if should_reset_daily st now then reset_daily_stats st now else st).
  destruct (is_trading_halted st0 now); simpl; [split; discriminate|].
  destruct (Qltb (daily_realized_pnl st0) (- (a * daily_loss_limit_pct s))); simpl.
  - split; [|discriminate]. intros _ Ht. apply can_open_position_halted.
    apply Qltb_iff. exact Ht.
  - destruct (Z.leb (consecutive_loss_limit s) (consecutive_losses st0)); simpl.
    + split; [discriminate|]. intros _ Ht. apply can_open_position_halted.
      apply Qltb_iff. exact Ht.
    + destruct (Z.leb (max_concurrent_positions s) (active_positions st0)); simpl;
        [split; discriminate|].
      destruct (Qltb q (6 # 10)); simpl; split; discriminate.
Qed.

Lemma rejection_halts_trading_witness :
  let st := mkStats 4 0 4 0 4 0 0 0 in
  fst (can_open_position default_settings st (7 # 10) 1000 60) = (false, TooManyConsecutiveLosses) /\
  fst (can_open_position default_settings (snd (can_open_position default_settings st (7 # 10) 1000 60))
         (9 # 10) 1000 3600) = (false, TradingHalted).
Proof.
  intro st.
  assert (H : fst (can_open_position default_settings st (7 # 10) 1000 60)
              = (false, TooManyConsecutiveLosses)) by (vm_compute; reflexivity).
  split; [exact H|].
  apply (proj2 (rejection_halts_trading default_settings st (7 # 10) 1000 60 3600 (9 # 10) 1000) H).
  vm_compute. reflexivity.
Defined.

(** A loss streak at the limit keeps [can_open_position] rejecting until a
    daily reset is due, whatever the halt window: when the 2-hour halt ends
    the streak is still counted and trading halts again. Once a reset is
    due, the streak no longer blocks (for a positive limit). *)
Lemma daily_reset_clears_streak (s : ExecutorSettings) (st : PortfolioStats) (q a t : Q) :
  (0 < consecutive_loss_limit s)%Z -> should_reset_daily st t = true ->
  snd (fst (can_open_position s st q a t)) <> TooManyConsecutiveLosses.
Proof.
  intros Hl Hr. unfold can_open_position. rewrite Hr.
  destruct_matches; simpl; try discriminate.
  match goal with
  | H : Z.leb (consecutive_loss_limit s) _ = true |- _ => apply Z.leb_le in H; simpl in H
  end.
  lia.
Qed.

(** A loss streak at the limit keeps [can_open_position] rejecting until a
    daily reset is due, whatever the halt window: when the 2-hour halt ends
    the streak is still counted and trading halts again. Once a reset is
    due, the streak no longer blocks (for a positive limit). *)
Theorem loss_streak_blocks_until_reset (s : ExecutorSettings) (st : PortfolioStats) (q a t : Q)
    (Hc : (consecutive_loss_limit s <= consecutive_losses st)%Z) :
  (should_reset_daily st t = false -> fst (fst (can_open_position s st q a t)) = false) /\
  ((0 < consecutive_loss_limit s)%Z -> should_reset_daily st t = true ->
   snd (fst (can_open_position s st q a t)) <> TooManyConsecutiveLosses).
Proof.
  split; [|apply daily_reset_clears_streak].
  intro Hr. unfold can_open_position. rewrite Hr.
  destruct (is_trading_halted st t); [reflexivity|].
  destruct (Qltb (daily_realized_pnl st) (- (a * daily_loss_limit_pct s))); [reflexivity|].
  apply Z.leb_le in Hc. rewrite Hc. reflexivity.
Qed.

Lemma loss_streak_blocks_until_reset_witness :
  let st := mkStats 4 0 4 0 4 0 0 (2 * 3600) in
  (4 <= consecutive_losses st)%Z /\
  fst (fst (can_open_position default_settings st (9 # 10) 1000 (3 * 3600))) = false.
Proof.
  intro st.
  assert (Hc : (consecutive_loss_limit default_settings <= consecutive_losses st)%Z)
    by (vm_compute; discriminate).
  split; [exact Hc|].
  apply (proj1 (loss_streak_blocks_until_reset default_settings st (9 # 10) 1000 (3 * 3600) Hc)).
  vm_compute. reflexivity.
Defined.

(** [halt_trading(m)] at time [now] halts trading exactly until
    now + 60 m seconds: [can_open_position] answers "Trading halted" to every
    call before that instant. *)
Theorem halt_trading_window (st : PortfolioStats) (m : Z) (now t : Q)
    (s : ExecutorSettings) (q a : Q) :
  (is_trading_halted (halt_trading st m now) t = true <-> t < now + inject_Z m * 60) /\
  (t < now + inject_Z m * 60 ->
   fst (can_open_position s (halt_trading st m now) q a t) = (false, TradingHalted)).
Proof.
  assert (E : now + inject_Z m / 60 * 3600 == now + inject_Z m * 60) by field.
  assert (Hiff : is_trading_halted (halt_trading st m now) t = true <-> t < now + inject_Z m * 60).
  { unfold is_trading_halted, halt_trading, _halt_trading. simpl.
    rewrite Qltb_iff, E. reflexivity. }
  split; [exact Hiff|].
  intro Ht. apply can_open_position_halted. apply Hiff. exact Ht.
Qed.

(** With the executor's account value (its [_estimate_account_value], or the
    1000.0 fallback), the daily loss limit is at least 1000 x
    daily_loss_limit_pct: a daily P&L not below -(1000 x daily_loss_limit_pct)
    never trips it. *)
Theorem daily_loss_limit_floor (s : ExecutorSettings) (st : PortfolioStats) (q now : Q)
    (fetched : option Q)
    (Hf : fetched = None \/ exists ps, fetched = Some (_estimate_account_value ps))
    (Hpct : 0 <= daily_loss_limit_pct s)
    (Hpnl : - (1000 * daily_loss_limit_pct s) <= daily_realized_pnl st) :
  snd (fst (can_open_position s st q (get_estimated_account_value fetched) now))
    <> DailyLossLimit.
Proof.
  set (a := get_estimated_account_value fetched).
  assert (Ha : 1000 <= a).
  { subst a. destruct Hf as [-> | [ps ->]]; simpl; [apply Qle_refl | apply Q.le_max_l]. }
  assert (Hlim : 1000 * daily_loss_limit_pct s <= a * daily_loss_limit_pct s)
    by (apply Qmult_le_compat_r; assumption).
  unfold can_open_position.
  set (st0 := if should_reset_daily st now then reset_daily_stats st now else st).
  assert (H0 : - (a * daily_loss_limit_pct s) <= daily_realized_pnl st0).
  { subst st0. destruct (should_reset_daily st now); simpl.
    - apply Qle_trans with (- (1000 * daily_loss_limit_pct s)); [lra|].
      apply Qle_trans with 0; [|apply Qle_refl].
      assert (0 <= 1000 * daily_loss_limit_pct s) by (apply Qmult_le_0_compat; lra). lra.
    - lra. }
  rewrite (Qltb_false _ _ H0).
  destruct_matches; simpl; discriminate.
Qed.

Lemma daily_loss_limit_floor_witness :
  let st := mkStats 1 0 1 (- 30) 1 0 0 0 in
  - (1000 * daily_loss_limit_pct default_settings) <= daily_realized_pnl st /\
  snd (fst (can_open_position default_settings st (9 # 10)
              (get_estimated_account_value (Some (_estimate_account_value []))) 60))
    <> DailyLossLimit.
Proof.
  intro st.
  assert (Hp : - (1000 * daily_loss_limit_pct default_settings) <= daily_realized_pnl st)
    by (vm_compute; discriminate).
  split; [exact Hp|].
  apply (daily_loss_limit_floor default_settings st (9 # 10) 60 (Some (_estimate_account_value [])));
    [right; exists []; reflexivity | vm_compute; discriminate | exact Hp].
Defined.

(** ** The runner check [should_exit_runner] *)

(** [should_exit_runner] always sells at or below the entry price; with a
    positive trail and a non-negative entry price it never sells at a new
    runner high above the entry price; its runner peak never decreases and
    is at least the current price afterwards. *)
Theorem should_exit_runner_spec (s : ExecutorSettings) (p : Position) (price : Q) :
  (price <= entry_price p -> fst (should_exit_runner s p price) = true) /\
  (0 < runner_trailing_stop_pct s -> 0 <= entry_price p ->
   runner_peak_price p < price -> entry_price p < price ->
   fst (should_exit_runner s p price) = false) /\
  runner_peak_price p <= runner_peak_price (snd (should_exit_runner s p price)) /\
  price <= runner_peak_price (snd (should_exit_runner s p price)).
Proof.
  unfold should_exit_runner.
  destruct (Qltb (runner_peak_price p) price) eqn:E; qbool_props; simpl.
  - split; [intro H; apply Qle_bool_iff; eapply Qle_trans; [exact H | apply Q.le_max_r]|].
    split; [|split; [lra | apply Qle_refl]].
    intros Htrail Hentry _ Hp. apply Qle_bool_false. apply Q.max_lub_lt; [|exact Hp].
    assert (0 < price) by lra.
    setoid_replace (price * (1 - runner_trailing_stop_pct s))
      with (price - price * runner_trailing_stop_pct s) by ring.
    assert (0 < price * runner_trailing_stop_pct s) by (apply Qmult_lt_0_compat; lra).
    lra.
  - split; [intro H; apply Qle_bool_iff; eapply Qle_trans; [exact H | apply Q.le_max_r]|].
    split; [intros _ _ H; exfalso; lra|].
    split; [apply Qle_refl | exact E].
Qed.

Lemma should_exit_runner_spec_witness :
  fst (should_exit_runner default_settings derisked_position (9 # 10)) = true /\
  fst (should_exit_runner default_settings derisked_position 3) = false.
Proof.
  destruct (should_exit_runner_spec default_settings derisked_position (9 # 10)) as [H1 _].
  destruct (should_exit_runner_spec default_settings derisked_position 3) as [_ [H2 _]].
  split; [apply H1; vm_compute; discriminate|].
  apply H2; vm_compute; first [reflexivity | discriminate].
Defined.

(** ** The idempotency store *)

Module IdempotencyFacts.
Import Idempotency.

Lemma existsb_false_find_none {A : Type} (f : A -> bool) (l : list A) :
  existsb f l = false -> find f l = None.
Proof.
  induction l as [|x r IH]; simpl; [reflexivity|].
  destruct (f x); simpl; [discriminate | exact IH].
Qed.

Lemma existsb_app_single {A : Type} (f : A -> bool) (l : list A) (x : A) :
  existsb f (l ++ [x]) = existsb f l || f x.
Proof. rewrite existsb_app. simpl. rewrite orb_false_r. reflexivity. Qed.

Lemma find_app_none {A : Type} (f : A -> bool) (l l' : list A) :
  find f l = None -> find f (l ++ l') = find f l'.
Proof.
  induction l as [|x r IH]; simpl; [reflexivity|].
  destruct (f x); [discriminate | exact IH].
Qed.

(** [mark_processed] followed by [has_processed]: the key is then found,
    other keys are unaffected, the first [processed_at] of a key is kept
    ([INSERT OR IGNORE]), and marking twice is marking once. *)
Theorem mark_processed_spec (tbl : list (string * Q)) (sid k : string) (now now' : Q) :
  has_processed (mark_processed tbl sid now) k = has_processed tbl k || String.eqb sid k /\
  processed_at (mark_processed tbl sid now) sid
    = Some (match processed_at tbl sid with Some t => t | None => now end) /\
  mark_processed (mark_processed tbl sid now) sid now' = mark_processed tbl sid now.
Proof.
  unfold mark_processed.
  destruct (has_processed tbl sid) eqn:E.
  - split; [|split].
    + destruct (String.eqb sid k) eqn:Ek; [|rewrite orb_false_r; reflexivity].
      apply String.eqb_eq in Ek. subst k. rewrite E. reflexivity.
    + unfold processed_at, has_processed in *.
      destruct (find (fun row => String.eqb (fst row) sid) tbl) eqn:F; [reflexivity|].
      exfalso. apply existsb_exists in E as [x [Hx Hs]].
      apply (find_none _ _ F) in Hx. congruence.
    + rewrite E. reflexivity.
  - split; [|split].
    + unfold has_processed. rewrite existsb_app_single. reflexivity.
    + unfold processed_at, has_processed in *.
      rewrite (existsb_false_find_none _ _ E).
      rewrite (find_app_none _ _ _ (existsb_false_find_none _ _ E)).
      simpl. rewrite String.eqb_refl. reflexivity.
    + unfold has_processed. rewrite existsb_app_single. simpl. rewrite String.eqb_refl.
      rewrite orb_true_r. reflexivity.
Qed.

Lemma fold_last_state_origin (sid : string) (l : list TransitionRow) (acc : option TransitionRow)
    (r : TransitionRow) :
  fold_left (last_state_step sid) l acc = Some r ->
  acc = Some r \/ (In r l /\ tr_signal_id r = sid).
Proof.
  revert acc. induction l as [|x rest IH]; intros acc H; simpl in *; [left; exact H|].
  destruct (IH _ H) as [E|[Hin Hs]]; [|right; split; [right; exact Hin | exact Hs]].
  unfold last_state_step in E.
  destruct (String.eqb (tr_signal_id x) sid) eqn:Es; [|left; exact E].
  destruct acc as [best|].
  - destruct (Qltb (tr_ts best) (tr_ts x)); [|left; exact E].
    injection E as <-. right. split; [left; reflexivity | apply String.eqb_eq; exact Es].
  - injection E as <-. right. split; [left; reflexivity | apply String.eqb_eq; exact Es].
Qed.

Lemma fold_last_state_filter (k : string) (p : TransitionRow -> bool) (l : list TransitionRow)
    (acc : option TransitionRow) :
  (forall r, In r l -> p r = false -> tr_signal_id r <> k) ->
  fold_left (last_state_step k) (filter p l) acc = fold_left (last_state_step k) l acc.
Proof.
  revert acc. induction l as [|x rest IH]; intros acc H; simpl; [reflexivity|].
  destruct (p x) eqn:Ep; simpl.
  - apply IH. intros r Hr. apply H. right. exact Hr.
  - rewrite IH by (intros r Hr; apply H; right; exact Hr).
    replace (last_state_step k acc x) with acc; [reflexivity|].
    unfold last_state_step.
    rewrite (string_eqb_neq _ _ (H x (or_introl eq_refl) Ep)). reflexivity.
Qed.

(** [record_transition] keeps exactly one row per (signal_id, state): the
    new row replaces the old one of its key and every other row is kept;
    other signals' [last_state] is unchanged. If its [ts] is later than
    those of the signal's other rows, [last_state] then returns the recorded
    state. *)
Theorem record_transition_spec (rows : list TransitionRow) (sid mint state : string) (ts : Q) :
  let rows' := record_transition rows sid mint state ts in
  filter (same_key sid state) rows' = [mkTransition sid mint state ts] /\
  filter (fun r => negb (same_key sid state r)) rows'
    = filter (fun r => negb (same_key sid state r)) rows /\
  ((forall r, In r rows -> tr_signal_id r = sid -> tr_ts r < ts) ->
   last_state rows' sid = Some state) /\
  (forall k, k <> sid -> last_state rows' k = last_state rows k).
Proof.
  intro rows'. subst rows'. unfold record_transition.
  split; [|split; [|split]].
  - rewrite filter_app.
    replace (filter (same_key sid state)
               (filter (fun row => negb (same_key sid state row)) rows)) with (@nil TransitionRow).
    + simpl. unfold same_key. simpl. rewrite !String.eqb_refl. reflexivity.
    + induction rows as [|x r IH]; simpl; [reflexivity|].
      destruct (same_key sid state x) eqn:E; simpl; [|rewrite E]; exact IH.
  - assert (Hk : same_key sid state (mkTransition sid mint state ts) = true)
      by (unfold same_key; simpl; rewrite !String.eqb_refl; reflexivity).
    rewrite filter_app. cbn [filter]. rewrite Hk. cbn [negb]. rewrite app_nil_r.
    induction rows as [|x r IH]; simpl; [reflexivity|].
    destruct (negb (same_key sid state x)) eqn:E; simpl; rewrite ?E, IH; reflexivity.
  - intro Hlater. unfold last_state. rewrite fold_left_app. simpl.
    unfold last_state_step at 1. simpl. rewrite String.eqb_refl.
    destruct (fold_left (last_state_step sid)
                (filter (fun row => negb (same_key sid state row)) rows) None) as [best|] eqn:F;
      [|reflexivity].
    destruct (fold_last_state_origin _ _ _ _ F) as [D|[Hin Hs]]; [discriminate|].
    apply filter_In in Hin as [Hin _].
    rewrite (Qltb_true _ _ (Hlater best Hin Hs)). reflexivity.
  - intros k Hk. unfold last_state. rewrite fold_left_app. simpl.
    unfold last_state_step at 1. simpl.
    rewrite (string_eqb_neq _ _ (fun e => Hk (eq_sym e))).
    rewrite fold_last_state_filter; [reflexivity|].
    intros r _ Hp. apply negb_false_iff in Hp. unfold same_key in Hp.
    apply andb_true_iff in Hp as [Hp _]. apply String.eqb_eq in Hp. rewrite Hp.
    intro C. apply Hk. symmetry. exact C.
Qed.

Lemma record_transition_spec_witness :
  let rows := record_transition [] "sig-1" "mint1" "QUOTED" 1 in
  last_state (record_transition rows "sig-1" "mint1" "SIGNED" 2) "sig-1" = Some "SIGNED".
Proof.
  intro rows.
  assert (H : forall r, In r rows -> tr_signal_id r = "sig-1" -> tr_ts r < 2).
  { intros r Hr _. unfold rows in Hr. simpl in Hr. destruct Hr as [<-|[]].
    vm_compute. reflexivity. }
  exact (proj1 (proj2 (proj2 (record_transition_spec rows "sig-1" "mint1" "SIGNED" 2))) H).
Defined.

(** [record_exit] adds its fraction to the total of its signal returned by
    [get_executed_exit_pct] and leaves the totals of other signals unchanged. *)
Theorem record_exit_spec (exits : list ExitFill) (sid mint k : string) (pct : Q) :
  get_executed_exit_pct (record_exit exits sid mint pct) k
    == get_executed_exit_pct exits k + (if String.eqb sid k then pct else 0).
Proof.
  unfold get_executed_exit_pct, record_exit, executed_exit_pct.
  induction exits as [|x r IH]; simpl.
  - destruct (String.eqb sid k); ring.
  - rewrite IH. ring.
Qed.

Lemma find_map_key {A : Type} (f : A -> bool) (g : A -> A) (l : list A) :
  (forall x, f (g x) = f x) -> find f (map g l) = option_map g (find f l).
Proof.
  intro Hg. induction l as [|x r IH]; simpl; [reflexivity|].
  rewrite Hg. destruct (f x); [reflexivity | exact IH].
Qed.

(** [upsert_position] followed by a lookup of the key: a new key gets the
    given row; an existing key gets the merge of [ON CONFLICT ... DO UPDATE]
    (a NULL argument keeps the stored value, the mint is overwritten); other
    keys are untouched. *)
Theorem upsert_position_spec (rows : list PositionRow) (sid mint : string)
    (es : option string) (et su stk : option Q) (td : option Z) (ep : option Q)
    (status : option string) (k : string) :
  let excluded := mkPositionRow sid mint es et su stk td ep status in
  let rows' := upsert_position rows sid mint es et su stk td ep status in
  find_position rows' sid
    = Some (match find_position rows sid with
            | Some old => upsert_merge old excluded
            | None => excluded
            end) /\
  (k <> sid -> find_position rows' k = find_position rows k).
Proof.
  intros excluded rows'. subst rows'. unfold upsert_position, find_position. fold excluded.
  destruct (existsb (fun row => String.eqb (pr_signal_id row) sid) rows) eqn:E.
  - rewrite !find_map_key
      by (intro x; destruct (String.eqb (pr_signal_id x) sid) eqn:Ex;
          simpl; rewrite ?Ex; reflexivity).
    split.
    + destruct (find (fun row => String.eqb (pr_signal_id row) sid) rows) eqn:F.
      * simpl. apply find_some in F as [_ F]. rewrite F. reflexivity.
      * exfalso. apply existsb_exists in E as [x [Hx Hs]].
        apply (find_none _ _ F) in Hx. congruence.
    + intro Hk. destruct (find (fun row => String.eqb (pr_signal_id row) k) rows) eqn:F;
        [|reflexivity].
      simpl. apply find_some in F as [_ F]. apply String.eqb_eq in F.
      rewrite F, (string_eqb_neq _ _ Hk). reflexivity.
  - rewrite !(existsb_false_find_none _ _ E).
    rewrite (find_app_none _ _ _ (existsb_false_find_none _ _ E)).
    split; [simpl; rewrite String.eqb_refl; reflexivity|].
    intro Hk. destruct (find (fun row => String.eqb (pr_signal_id row) k) rows) eqn:F.
    + induction rows as [|x r IH]; simpl in *; [discriminate|].
      destruct (String.eqb (pr_signal_id x) k); [exact F|].
      apply orb_false_iff in E as [_ E]. apply IH; assumption.
    + rewrite (find_app_none _ _ _ F). simpl.
      rewrite (string_eqb_neq sid k (fun e => Hk (eq_sym e))). reflexivity.
Qed.

(** After an upsert with a status, every row of the key carries that
    status: the key is loaded by [load_positions_by_status] for it and for
    no other status. A position upserted as "closed" is thus not among the
    "active" rows that [start()] resumes. *)
Theorem upsert_then_load (rows : list PositionRow) (sid mint : string)
    (es : option string) (et su stk : option Q) (td : option Z) (ep : option Q)
    (st : string) :
  let rows' := upsert_position rows sid mint es et su stk td ep (Some st) in
  (exists r, In r (load_positions_by_status rows' st) /\ pr_signal_id r = sid) /\
  (forall st' r, st' <> st -> In r (load_positions_by_status rows' st') -> pr_signal_id r <> sid).
Proof.
  intro rows'.
  assert (Hall : forall r, In r rows' -> pr_signal_id r = sid -> pr_status r = Some st).
  { subst rows'. unfold upsert_position.
    destruct (existsb (fun row => String.eqb (pr_signal_id row) sid) rows) eqn:E.
    - intros r Hr Hs. apply in_map_iff in Hr as [x [<- Hx]].
      destruct (String.eqb (pr_signal_id x) sid) eqn:Ex; [reflexivity|].
      simpl in Hs. rewrite Hs, String.eqb_refl in Ex. discriminate.
    - intros r Hr Hs. apply in_app_or in Hr as [Hr|[<-|[]]]; [|reflexivity].
      exfalso. assert (Ht : existsb (fun row => String.eqb (pr_signal_id row) sid) rows = true).
      { apply existsb_exists. exists r. split; [exact Hr|]. rewrite Hs. apply String.eqb_refl. }
      congruence. }
  assert (Hin : exists r, In r rows' /\ pr_signal_id r = sid).
  { destruct (upsert_position_spec rows sid mint es et su stk td ep (Some st) sid) as [F _].
    fold rows' in F. unfold find_position in F.
    apply find_some in F as [Hr Hs]. eexists. split; [exact Hr|]. apply String.eqb_eq. exact Hs. }
  split.
  - destruct Hin as [r [Hr Hs]]. exists r. split; [|exact Hs].
    unfold load_positions_by_status. apply filter_In. split; [exact Hr|].
    rewrite (Hall r Hr Hs). apply String.eqb_refl.
  - intros st' r Hne Hr Hs. unfold load_positions_by_status in Hr.
    apply filter_In in Hr as [Hr Hst]. rewrite (Hall r Hr Hs) in Hst.
    apply String.eqb_eq in Hst. congruence.
Qed.

End IdempotencyFacts.

(** ** The Redis lock of [OrderManager] and its use by [_process_signal] *)

Module LockFacts.
Import OrderManager.

Lemma lookup_delete_same (keys : list (string * Q)) (name : string) :
  lookup_key (delete_key keys name) name = None.
Proof.
  unfold lookup_key, delete_key. induction keys as [|[n e] r IH]; simpl; [reflexivity|].
  destruct (String.eqb n name) eqn:E; simpl; [exact IH|]. rewrite E. exact IH.
Qed.

Lemma lookup_delete_other (keys : list (string * Q)) (name n : string) :
  n <> name -> lookup_key (delete_key keys name) n = lookup_key keys n.
Proof.
  intro Hn. unfold lookup_key, delete_key. induction keys as [|[m e] r IH]; simpl; [reflexivity|].
  destruct (String.eqb m name) eqn:E; simpl.
  - apply String.eqb_eq in E. subst m. rewrite (string_eqb_neq name n (fun e => Hn (eq_sym e))).
    exact IH.
  - destruct (String.eqb m n); [reflexivity | exact IH].
Qed.

Lemma lookup_cons_same (keys : list (string * Q)) (name : string) (e : Q) :
  lookup_key ((name, e) :: keys) name = Some e.
Proof. unfold lookup_key. simpl. rewrite String.eqb_refl. reflexivity. Qed.

Lemma lookup_cons_other (keys : list (string * Q)) (name n : string) (e : Q) :
  n <> name -> lookup_key ((name, e) :: keys) n = lookup_key keys n.
Proof.
  intro Hn. unfold lookup_key. simpl.
  rewrite (string_eqb_neq name n (fun e => Hn (eq_sym e))). reflexivity.
Qed.


Lemma acquire_release_frame (redis del_ok : bool) (keys : list (string * Q)) (key : string)
    (ttl : Z) (now : Q) :
  (0 < ttl)%Z ->
  match acquire_lock redis keys key ttl now with
  | None => False
  | Some (false, keys1) => keys1 = keys
  | Some (true, keys1) =>
      release_lock redis del_ok keys1 key = keys \/
      ((forall n, n <> "lock:" ++ key ->
          lookup_key (release_lock redis del_ok keys1 key) n = lookup_key keys n) /\
       lookup_key (release_lock redis del_ok keys1 key) ("lock:" ++ key)
         = if del_ok then None else Some (now + inject_Z ttl))
  end.
Proof.
  intro Ht. unfold acquire_lock, release_lock. destruct redis; cbn [negb];
    [|left; reflexivity].
  rewrite (proj2 (Z.leb_gt _ _) Ht).
  destruct (key_alive keys ("lock:" ++ key) now); [reflexivity|].
  right. split.
  - intros n Hn. destruct del_ok.
    + rewrite (lookup_delete_other _ _ _ Hn), (lookup_cons_other _ _ _ _ Hn).
      apply (lookup_delete_other _ _ _ Hn).
    + rewrite (lookup_cons_other _ _ _ _ Hn). apply (lookup_delete_other _ _ _ Hn).
  - destruct del_ok; [apply lookup_delete_same | apply lookup_cons_same].
Qed.

(** [_process_signal] touches no Redis key but its lock, and leaves the
    lock behind only when the DEL of [release_lock] fails: either the keys
    are unchanged (no lock taken, or the lock was held by someone else), or
    every other key is as before and the lock key is gone after a
    successful DEL, or still there with its 120 s expiry after a failed one
    (the failure is swallowed). *)
Theorem process_signal_releases_lock (s : ExecutorSettings) (base : Q) (held : bool)
    (st : PortfolioStats) (redis del_ok : bool) (keys : list (string * Q)) (sg : SignalIn)
    (av now now_ms : Q) :
  let lock_name := "lock:" ++ (in_ca sg ++ ":" ++ match in_signal_id sg with
                                                  | Some x => x
                                                  | None => ""
                                                  end) in
  let keys' := snd (_process_signal s base held st redis del_ok keys sg av now now_ms) in
  keys' = keys \/
  ((forall n, n <> lock_name -> lookup_key keys' n = lookup_key keys n) /\
   lookup_key keys' lock_name = if del_ok then None else Some (now_ms + inject_Z 120000)).
Proof.
  intros lock_name keys'. subst keys' lock_name. unfold _process_signal.
  destruct held; [left; reflexivity|].
  destruct (can_open_position s st (in_quality_score sg) av now) as [[ok r] st1].
  cbn [fst snd negb]. destruct ok; [|left; reflexivity]. cbn [negb].
  pose proof (acquire_release_frame redis del_ok keys
    (in_ca sg ++ ":" ++ match in_signal_id sg with Some x => x | None => "" end)
    120000 now_ms eq_refl) as F.
  destruct (acquire_lock redis keys _ 120000 now_ms) as [[[|] keys1]|];
    cbn [snd]; [|left; exact F|left; reflexivity].
  exact F.
Qed.

End LockFacts.

(** ** The latency histograms of a buy *)

Module LatencyFacts.
Import Latency.

(** On the path of a successful buy, the tracker makes four histogram
    observations, in this order: QUOTE_MS (t2 - t1), SIGN_MS (t3 - t2),
    SUBMIT_MS (t4 - t3) and HOT_PATH_MS (t4 - t0), in milliseconds. The
    three stage times add up to the time from the quote request to the
    submission; with a monotonic clock all four are non-negative and the
    stage times add up to at most the HOT_PATH_MS value. *)
Theorem buy_path_latency (t0 t1 t2 t3 t4 : Q) :
  buy_path_observations t0 t1 t2 t3 t4
    = [QUOTE_MS ((t2 - t1) * 1000); SIGN_MS ((t3 - t2) * 1000);
       SUBMIT_MS ((t4 - t3) * 1000); HOT_PATH_MS ((t4 - t0) * 1000)] /\
  (t2 - t1) * 1000 + (t3 - t2) * 1000 + (t4 - t3) * 1000 == (t4 - t1) * 1000 /\
  (t0 <= t1 -> t1 <= t2 -> t2 <= t3 -> t3 <= t4 ->
   0 <= (t2 - t1) * 1000 /\ 0 <= (t3 - t2) * 1000 /\ 0 <= (t4 - t3) * 1000 /\
   0 <= (t4 - t0) * 1000 /\
   (t2 - t1) * 1000 + (t3 - t2) * 1000 + (t4 - t3) * 1000 <= (t4 - t0) * 1000).
Proof.
  split; [reflexivity|]. split; [ring|].
  intros H1 H2 H3 H4. repeat split; nra.
Qed.

Lemma buy_path_latency_witness :
  0 <= ((3 # 1000) - (1 # 1000)) * 1000 /\
  ((3 # 1000) - (1 # 1000)) * 1000 + ((4 # 1000) - (3 # 1000)) * 1000
    + ((6 # 1000) - (4 # 1000)) * 1000 <= ((6 # 1000) - 0) * 1000.
Proof.
  destruct (proj2 (proj2 (buy_path_latency 0 (1 # 1000) (3 # 1000) (4 # 1000) (6 # 1000)))
              ltac:(vm_compute; discriminate) ltac:(vm_compute; discriminate)
              ltac:(vm_compute; discriminate) ltac:(vm_compute; discriminate))
    as [H1 [_ [_ [_ H5]]]].
  exact (conj H1 H5).
Defined.

End LatencyFacts.

(** ** The SOL/USD price cache *)

Lemma get_sol_usd_price_returns_cache (c : SolCache) (now : Q) (price : option Q) :
  fst (fst (_get_sol_usd_price c now price)) = _cached_sol_usd (snd (fst (_get_sol_usd_price c now price))) /\
  (snd (fst (_get_sol_usd_price c now price)) = c \/
   (truthy price = true /\ _cached_sol_usd (snd (fst (_get_sol_usd_price c now price))) = price)).
Proof.
  unfold _get_sol_usd_price.
  destruct (truthy (_cached_sol_usd c) && Qltb (now - _sol_price_last_fetch c) 10);
    [simpl; split; [reflexivity | left; reflexivity]|].
  destruct (truthy price) eqn:E; simpl; split; auto.
Qed.

Lemma run_sol_price_values (c : SolCache) (calls : list (Q * option Q)) (v : Q) (b : bool) :
  In (Some v, b) (run_sol_price c calls) ->
  _cached_sol_usd c = Some v \/ (truthy (Some v) = true /\ In (Some v) (map snd calls)).
Proof.
  revert c. induction calls as [|[now price] rest IH]; intros c Hin; simpl in Hin; [contradiction|].
  pose proof (get_sol_usd_price_returns_cache c now price) as [Hret Hc].
  destruct (_get_sol_usd_price c now price) as [[v0 c'] called]. simpl in Hret, Hc.
  assert (Hcache : _cached_sol_usd c' = Some v ->
                   _cached_sol_usd c = Some v \/
                   (truthy (Some v) = true /\ In (Some v) (map snd ((now, price) :: rest)))).
  { intro Hv. destruct Hc as [->|[Ht Hp]]; [left; exact Hv|].
    right. rewrite Hv in Hp. rewrite <- Hp in Ht.
    split; [exact Ht | simpl; left; rewrite <- Hp; reflexivity]. }
  destruct Hin as [Hh|Hin].
  - injection Hh as -> ->. apply Hcache. symmetry. exact Hret.
  - destruct (IH c' Hin) as [Hv|[Ht Hp]]; [apply Hcache; exact Hv|].
    right. split; [exact Ht | right; exact Hp].
Qed.

Lemma run_sol_price_keeps_value (c : SolCache) (calls : list (Q * option Q)) :
  _cached_sol_usd c <> None -> ~ In None (map fst (run_sol_price c calls)).
Proof.
  revert c. induction calls as [|[now price] rest IH]; intros c Hc; simpl; [tauto|].
  pose proof (get_sol_usd_price_returns_cache c now price) as [Hret Hc'].
  destruct (_get_sol_usd_price c now price) as [[v0 c'] called]. simpl in Hret, Hc' |- *.
  assert (Hn : _cached_sol_usd c' <> None).
  { destruct Hc' as [->|[Ht Hp]]; [exact Hc|]. rewrite Hp. intro E. rewrite E in Ht. simpl in Ht. discriminate Ht. }
  intros [E|Hin]; [rewrite Hret in E; exact (Hn E)|].
  exact (IH c' Hn Hin).
Qed.

Lemma run_sol_price_no_none_after (c : SolCache) (calls : list (Q * option Q))
    (l1 l2 : list (option Q)) (x : option Q) :
  map fst (run_sol_price c calls) = (l1 ++ x :: l2)%list -> x <> None -> ~ In None l2.
Proof.
  revert c l1. induction calls as [|[now price] rest IH]; intros c l1 Hs Hx; simpl in Hs.
  - destruct l1; discriminate.
  - pose proof (get_sol_usd_price_returns_cache c now price) as [Hret _].
    destruct (_get_sol_usd_price c now price) as [[v0 c'] called]. simpl in Hret, Hs.
    destruct l1 as [|y l1']; simpl in Hs; injection Hs as Hy Hrest.
    + subst x. rewrite <- Hrest. apply run_sol_price_keeps_value. rewrite <- Hret. exact Hx.
    + exact (IH c' l1' Hrest Hx).
Qed.

(** From the cache set by [__init__], every price [_get_sol_usd_price]
    returns is a non-zero answer of the price API, and once it has returned
    a price it never returns [None] again: a failed fetch falls back to the
    cached value, however old. *)
Theorem sol_price_cache_spec (calls : list (Q * option Q)) :
  let out := run_sol_price init_sol_cache calls in
  (forall v b, In (Some v, b) out -> ~ v == 0 /\ In (Some v) (map snd calls)) /\
  (forall l1 x l2, map fst out = (l1 ++ x :: l2)%list -> x <> None -> ~ In None l2).
Proof.
  intro out. split.
  - intros v b Hin. destruct (run_sol_price_values _ _ _ _ Hin) as [D|[Ht Hp]]; [discriminate|].
    split; [|exact Hp]. simpl in Ht. intro E. apply Qeq_bool_iff in E. rewrite E in Ht.
    discriminate.
  - intros l1 x l2. apply run_sol_price_no_none_after.
Qed.

(** ** Stops, exit fractions and the parsing of the tier and zone lists *)

(** The stop-loss price of [calculate_stop_loss_price] always lies between
    10% and 90% of the entry price, whatever the base percentage, risk score,
    risk flags and LP lock: the adjusted percentage is clamped to
    [0.10, 0.90]. *)
Theorem stop_loss_price_bounds (py_float : string -> option Q) (s : ExecutorSettings)
    (p : Position) (Hentry : 0 <= entry_price p) :
  entry_price p * (1 # 10) <= calculate_stop_loss_price py_float s p <= entry_price p * (9 # 10).
Proof.
  unfold calculate_stop_loss_price.
  set (adj := Qmax (1 # 10) (Qmin (9 # 10) (stop_loss_base_pct s * risk_multiplier py_float p))).
  assert (H1 : 1 # 10 <= adj) by apply Q.le_max_l.
  assert (H2 : adj <= 9 # 10).
  { apply Q.max_lub; [lra | apply Q.le_min_l]. }
  assert (P1 : 0 <= entry_price p * (adj - (1 # 10))) by (apply Qmult_le_0_compat; lra).
  assert (P2 : 0 <= entry_price p * ((9 # 10) - adj)) by (apply Qmult_le_0_compat; lra).
  split; nra.
Qed.

Lemma stop_loss_price_bounds_witness :
  0 <= entry_price (sample_position "pending" "" true) /\
  calculate_stop_loss_price dec_float default_settings (sample_position "pending" "" true)
    <= entry_price (sample_position "pending" "" true) * (9 # 10).
Proof.
  assert (H : 0 <= entry_price (sample_position "pending" "" true))
    by (vm_compute; discriminate).
  exact (conj H (proj2 (stop_loss_price_bounds dec_float default_settings _ H))).
Defined.

(** [get_time_stop_limit] lies between 30% of [time_stop_minutes] and all
    of it; the "pending" check comes first, so a pending token gets half the
    time even when its risks mention a honeypot. *)
Theorem time_stop_limit_bounds (s : ExecutorSettings) (p : Position)
    (Hbase : (0 <= time_stop_minutes s)%Z) :
  inject_Z (time_stop_minutes s) * (3 # 10) <= get_time_stop_limit s p
    <= inject_Z (time_stop_minutes s) /\
  (rugcheck_score p = "pending" ->
   get_time_stop_limit s p == inject_Z (time_stop_minutes s) * (5 # 10)).
Proof.
  assert (Hb : inject_Z 0 <= inject_Z (time_stop_minutes s)) by (rewrite <- Zle_Qle; exact Hbase).
  change (inject_Z 0) with 0 in Hb.
  unfold get_time_stop_limit. split.
  - destruct (String.eqb (rugcheck_score p) "pending"); [split; lra|].
    destruct (str_contains "honeypot" (str_lower (rugcheck_risks p))); [split; lra|].
    destruct (negb (rugcheck_lp_locked p)); split; lra.
  - intros ->. simpl. reflexivity.
Qed.

Lemma time_stop_limit_bounds_witness :
  get_time_stop_limit default_settings (sample_position "pending" "honeypot" false) == 30.
Proof.
  refine (Qeq_trans _ _ _ (proj2 (time_stop_limit_bounds default_settings
            (sample_position "pending" "honeypot" false) _) eq_refl) _).
  - vm_compute. intro Hc. discriminate Hc.
  - vm_compute. reflexivity.
Defined.

Lemma insert_by_fst_perm (x : Q * Q) (l : list (Q * Q)) :
  Permutation (x :: l) (insert_by_fst x l).
Proof.
  induction l as [|y r IH]; simpl; [reflexivity|].
  destruct (Qle_bool (fst y) (fst x)); [|reflexivity].
  transitivity (y :: x :: r); [apply perm_swap | apply perm_skip; exact IH].
Qed.

Lemma sort_by_fst_fold_perm (l acc : list (Q * Q)) :
  Permutation (l ++ acc) (fold_left (fun acc x => insert_by_fst x acc) l acc).
Proof.
  revert acc. induction l as [|x r IH]; intros acc; simpl; [reflexivity|].
  transitivity (r ++ x :: acc)%list; [apply Permutation_middle|].
  transitivity (r ++ insert_by_fst x acc)%list; [|apply IH].
  apply Permutation_app_head. apply insert_by_fst_perm.
Qed.

(** The tier and zone lists parsed by [parse_csv_pairs] are sorted by their
    first component (the multiple or threshold) and hold exactly the parsed
    items, each once, whatever the order in the configuration string. *)
Theorem parse_csv_pairs_sorted (py_float : string -> option Q) (csv : string)
    (l : list (Q * Q)) :
  parse_csv_pairs py_float csv = Some l ->
  StronglySorted fst_le l /\
  exists items, parse_pairs py_float (str_split "," csv) = Some items /\ Permutation items l.
Proof.
  unfold parse_csv_pairs. destruct (parse_pairs py_float (str_split "," csv)) as [items|];
    [|discriminate].
  intro H. injection H as <-.
  split; [apply sort_by_fst_spec|]. exists items. split; [reflexivity|].
  pose proof (sort_by_fst_fold_perm items []) as Hp. rewrite app_nil_r in Hp. exact Hp.
Qed.

Lemma parse_csv_pairs_sorted_witness :
  StronglySorted fst_le
    (match parse_csv_pairs dec_float "13:0.10,5:0.10,8:0.10" with Some l => l | None => [] end).
Proof.
  exact (proj1 (parse_csv_pairs_sorted dec_float "13:0.10,5:0.10,8:0.10" _ eq_refl)).
Defined.

Lemma tier_loop_fraction (tiers : list (Q * Q)) (hit : list Z) (cm mr : Q) (mi : Z) (pct : Q) :
  0 <= mr -> tier_loop tiers hit cm mr = Some (mi, pct) -> 0 < pct <= 1.
Proof.
  intro Hmr. induction tiers as [|[multiple sp] rest IH]; simpl; [discriminate|].
  destruct (negb (existsb (Z.eqb (py_int multiple)) hit) && Qle_bool multiple cm);
    [|exact IH].
  destruct (Qltb (1 - sp) mr) eqn:E1;
    destruct (Qltb 0 _) eqn:E2; try exact IH;
    intro H; injection H as _ <-; qbool_props.
  - split; [exact E2|]. apply Q.max_lub; lra.
  - split; lra.
Qed.

(** Whenever [should_exit_position] decides to sell, the fraction is in
    (0, 1] (with a non-negative [min_runner_pct] and a de-risking fraction
    in (0, 1]), and it is 0 when it decides not to sell. *)
Theorem exit_fraction_bounds (py_float : string -> option Q) (s : ExecutorSettings)
    (p : Position) (price now : Q) (b : bool) (r : ExitReason) (f : Q) (p' : Position)
    (Hmr : 0 <= min_runner_pct s) (Hd : 0 < derisking_sell_pct s <= 1)
    (H : should_exit_position py_float s p price now = Some ((b, r, f), p')) :
  if b then 0 < f <= 1 else f == 0.
Proof.
  unfold should_exit_position in H.
  destruct (negb (PositionStatus_eqb (status p) ACTIVE));
    [injection H as <- <- <- <-; reflexivity|].
  destruct (Qeq_bool (entry_price p) 0); [discriminate|].
  destruct (Qle_bool price _); [injection H as <- <- <- <-; split; lra|].
  destruct (Qltb 0 (stop_loss_price p) && Qle_bool price (stop_loss_price p));
    [injection H as <- <- <- <-; split; lra|].
  destruct (Qle_bool (get_time_stop_limit s p) _ && Qltb _ _);
    [injection H as <- <- <- <-; split; lra|].
  destruct (negb (is_derisked p) && Qle_bool (derisking_multiple s) _);
    [injection H as <- <- <- <-; exact Hd|].
  destruct (tier_step py_float s p (price / entry_price p) now) as [[pct p1]|] eqn:T.
  - injection H as <- <- <- <-.
    unfold tier_step in T.
    destruct (is_derisked p && Qltb 0 (remaining_tokens p)); [|discriminate].
    destruct (Qle_bool _ _); [|discriminate].
    destruct (tier_loop _ _ _ _) as [[mi pc]|] eqn:L; [|discriminate].
    injection T as <- _. exact (tier_loop_fraction _ _ _ _ _ _ Hmr L).
  - destruct (is_derisked p); [|injection H as <- <- <- <-; reflexivity].
    unfold runner_step in H.
    destruct (Qle_bool price _); injection H as <- <- <- <-; [split; lra | reflexivity].
Qed.

Lemma exit_fraction_bounds_witness :
  let p := mark_position_derisked (sample_position "5" "" true) 3 330 in
  should_exit_position dec_float default_settings p 6 200
    = Some ((true, PROFIT_TAKE, 10 # 100), with_tier_hit p 5 200) /\
  0 < 10 # 100 <= 1.
Proof.
  intro p.
  assert (H : should_exit_position dec_float default_settings p 6 200
                = Some ((true, PROFIT_TAKE, 10 # 100), with_tier_hit p 5 200))
    by (vm_compute; reflexivity).
  split; [exact H|].
  exact (exit_fraction_bounds dec_float default_settings p 6 200 true PROFIT_TAKE (10 # 100)
           (with_tier_hit p 5 200) ltac:(vm_compute; discriminate)
           ltac:(split; vm_compute; [reflexivity | discriminate]) H).
Defined.

(** After [mark_position_derisked], the stop loss sits at the entry price:
    an active de-risked position is sold in full with reason STOP_LOSS at
    any price at or below its entry price. *)
Theorem derisked_breakeven_stop (py_float : string -> option Q) (s : ExecutorSettings)
    (p : Position) (c amount price now : Q)
    (Hactive : status p = ACTIVE) (Hentry : 0 < entry_price p)
    (Hprice : price <= entry_price p) :
  option_map fst (should_exit_position py_float s (mark_position_derisked p c amount) price now)
    = Some (true, STOP_LOSS, 1).
Proof.
  unfold should_exit_position. cbn [status mark_position_derisked entry_price stop_loss_price].
  rewrite Hactive. cbn [PositionStatus_eqb negb].
  assert (Hne : Qeq_bool (entry_price p) 0 = false).
  { apply not_true_iff_false. intro E. apply Qeq_bool_iff in E. lra. }
  rewrite Hne.
  destruct (Qle_bool price _); [reflexivity|].
  rewrite (Qltb_true _ _ Hentry), (Qle_bool_true _ _ Hprice). reflexivity.
Qed.

Lemma derisked_breakeven_stop_witness :
  option_map fst (should_exit_position dec_float default_settings
    (mark_position_derisked (sample_position "5" "" true) 3 330) (9 # 10) 60)
    = Some (true, STOP_LOSS, 1).
Proof.
  apply derisked_breakeven_stop; [reflexivity | vm_compute; reflexivity | vm_compute; discriminate].
Defined.

(** ** Resuming in-flight positions *)

Lemma dict_set_keys {V : Type} (d : list (string * V)) (k : string) (v : V) :
  (map fst (dict_set d k v) = map fst d /\ In k (map fst d)) \/
  (map fst (dict_set d k v) = (map fst d ++ [k])%list /\ ~ In k (map fst d)).
Proof.
  unfold dict_set.
  destruct (existsb (fun e => String.eqb (fst e) k) d) eqn:E.
  - left. split.
    + rewrite map_map. apply map_ext. intros [a b]. simpl.
      destruct (String.eqb a k) eqn:Ea; [apply String.eqb_eq in Ea; subst; reflexivity|].
      reflexivity.
    + apply existsb_exists in E as [[a b] [Hin Ha]]. apply String.eqb_eq in Ha. simpl in Ha.
      subst a. apply in_map_iff. exists (k, b). split; [reflexivity | exact Hin].
  - right. split; [rewrite map_app; reflexivity|].
    intro Hin. apply in_map_iff in Hin as [[a b] [Ha Hin]]. simpl in Ha. subst a.
    assert (Ht : existsb (fun e => String.eqb (fst e) k) d = true).
    { apply existsb_exists. exists (k, b). split; [exact Hin | apply String.eqb_refl]. }
    congruence.
Qed.

Lemma resume_fold (recs : list Idempotency.PositionRow) (ps : list (string * Position)) (st : PortfolioStats) :
  NoDup (map fst ps) ->
  let '(ps', st') := fold_left resume_step recs (ps, st) in
  active_positions st' = (active_positions st + Z.of_nat (length recs))%Z /\
  NoDup (map fst ps') /\
  (forall k, In k (map fst ps') <-> In k (map fst ps) \/ exists r, In r recs /\ Idempotency.pr_mint r = k).
Proof.
  revert ps st. induction recs as [|r rest IH]; intros ps st Hnd; simpl.
  - split; [lia|]. split; [exact Hnd|]. intro k. split; [tauto|].
    intros [H|[x [[] _]]]; exact H.
  - assert (Hnd' : NoDup (map fst (dict_set ps (Idempotency.pr_mint r) (resumed_position r)))).
    { destruct (dict_set_keys ps (Idempotency.pr_mint r) (resumed_position r)) as [[E _]|[E Hn]];
        rewrite E; [exact Hnd|].
      apply Permutation_NoDup with (Idempotency.pr_mint r :: map fst ps);
        [apply Permutation_cons_append | constructor; assumption]. }
    specialize (IH _ (mkStats (total_trades st) (winning_trades st) (losing_trades st)
                       (daily_realized_pnl st) (consecutive_losses st) (active_positions st + 1)
                       (last_reset_time st) (trading_halted_until st)) Hnd').
    destruct (fold_left resume_step rest _) as [ps' st'].
    destruct IH as [Ha [Hn Hk]]. simpl in Ha.
    split; [lia|]. split; [exact Hn|].
    intro k. rewrite Hk.
    assert (Hset : In k (map fst (dict_set ps (Idempotency.pr_mint r) (resumed_position r)))
                   <-> Idempotency.pr_mint r = k \/ In k (map fst ps)).
    { destruct (dict_set_keys ps (Idempotency.pr_mint r) (resumed_position r)) as [[E Hin]|[E _]];
        rewrite E; [split; [tauto | intros [<-|H]; assumption]|].
      rewrite in_app_iff. simpl. intuition congruence. }
    rewrite Hset. split.
    + intros [[<-|H]|[x [Hx Hxk]]].
      * right. exists r. split; [left; reflexivity | reflexivity].
      * left. exact H.
      * right. exists x. split; [right; exact Hx | exact Hxk].
    + intros [H|[x [[<-|Hx] Hxk]]].
      * left. right. exact H.
      * left. left. exact Hxk.
      * right. exists x. split; assumption.
Qed.

(** Resuming at start-up adds one to [active_positions] for every row
    whose status is "active", but keys the positions dict by mint: the dict
    holds each mint of an active row exactly once, so two active rows of
    the same mint leave [active_positions] larger than the number of
    positions held. *)
Theorem resume_inflight_counts (rows : list Idempotency.PositionRow) (st : PortfolioStats) :
  let active := Idempotency.load_positions_by_status rows "active" in
  let '(ps, st') := resume_inflight rows [] st in
  active_positions st' = (active_positions st + Z.of_nat (length active))%Z /\
  NoDup (map fst ps) /\
  (forall k, In k (map fst ps) <-> exists r, In r active /\ Idempotency.pr_mint r = k).
Proof.
  intro active. unfold resume_inflight. fold active.
  pose proof (resume_fold active [] st (NoDup_nil _)) as H.
  destruct (fold_left resume_step active ([], st)) as [ps st'].
  destruct H as [Ha [Hn Hk]]. split; [exact Ha|]. split; [exact Hn|].
  intro k. rewrite Hk. simpl. tauto.
Qed.

(** A position resumed by [start()] is treated as an unknown risk: its time
    stop is half of [time_stop_minutes]; with no stored entry price every
    exit check fails on the division by the zero entry price; and since its
    [stop_loss_price] stays 0 (it is not recomputed), it is never sold with
    reason STOP_LOSS above the disaster-stop price. *)
Theorem resumed_position_risk (py_float : string -> option Q) (s : ExecutorSettings)
    (r : Idempotency.PositionRow) :
  get_time_stop_limit s (resumed_position r) == inject_Z (time_stop_minutes s) * (5 # 10) /\
  (Idempotency.pr_entry_price r = None ->
   forall price now, should_exit_position py_float s (resumed_position r) price now = None) /\
  (forall price now,
   entry_price (resumed_position r) * (1 - disaster_stop_pct s) + float_eps < price ->
   match should_exit_position py_float s (resumed_position r) price now with
   | Some ((_, STOP_LOSS, _), _) => False
   | _ => True
   end).
Proof.
  split; [reflexivity|]. split.
  - intros E price now. unfold should_exit_position, resumed_position, new_position, or_zero.
    rewrite E. reflexivity.
  - intros price now Hp. unfold should_exit_position.
    cbn [status resumed_position new_position PositionStatus_eqb negb stop_loss_price
         is_derisked].
    destruct (Qeq_bool _ 0); [exact I|].
    rewrite (Qle_bool_false _ _ Hp).
    cbn [Qltb Qle_bool negb andb].
    destruct (Qle_bool (get_time_stop_limit s _) _ && Qltb _ _); [exact I|].
    cbn [negb andb].
    destruct (Qle_bool (derisking_multiple s) _); [exact I|].
    unfold tier_step. cbn [is_derisked resumed_position new_position andb]. exact I.
Qed.
